(** * ProductHistory: movement feed and delete workflow

    A shallow embedding of [src/components/warehouse/ProductHistory.tsx]:
    the React component that shows the stock movements of one product,
    keeps them sorted by date, and lets the user delete one movement behind
    a password prompt, restoring the product's previous quantity and
    average price in the same Firestore batch.

    Layout of the development:
    - [Js]           completions, and a state-and-exception monad for
                     [try]/[catch]/[finally];
    - [Movement], [Product], [MovementDoc]   the records of the source;
    - [Firestore]    the two collections, batched writes, queries;
    - [Feed]         normalisation and the comparator sort of the snapshot
                     callback;
    - [ProductHistory]   component state, handlers, and the effect
                     life cycle;
    - the theorems. *)

From Stdlib Require Import ZArith QArith Sorted Permutation.
From stdpp Require Import base option list strings gmap sorting.

Local Open Scope Z_scope.

(** * JavaScript completions and a handler monad *)

Module Js.

(** A statement either completes normally or throws. *)
Inductive completion (A : Type) : Type :=
| Normal (a : A)
| Thrown (e : string).
Arguments Normal {A} a.
Arguments Thrown {A} e.

(** A computation over a state [S] that may throw.  State changes made
    before a throw are kept, as in JavaScript. *)
Definition M (S A : Type) : Type := S -> completion A * S.

Definition ret {S A} (a : A) : M S A := fun s => (Normal a, s).

Definition bind {S A B} (m : M S A) (k : A -> M S B) : M S B :=
  fun s =>
    match m s with
    | (Normal a, s') => k a s'
    | (Thrown e, s') => (Thrown e, s')
    end.

Definition throw {S A} (e : string) : M S A := fun s => (Thrown e, s).

Definition get {S} : M S S := fun s => (Normal s, s).

Definition modify {S} (f : S -> S) : M S unit := fun s => (Normal tt, f s).

(** [try { body } catch (e) { handler e }] *)
Definition try_catch {S A} (body : M S A) (handler : string -> M S A) : M S A :=
  fun s =>
    match body s with
    | (Normal a, s') => (Normal a, s')
    | (Thrown e, s') => handler e s'
    end.

(** [try { body } finally { fin }]: [fin] always runs; a throw of [fin]
    replaces the completion of [body]. *)
Definition try_finally {S A} (body : M S A) (fin : M S unit) : M S A :=
  fun s =>
    match body s with
    | (c, s') =>
        match fin s' with
        | (Normal _, s'') => (c, s'')
        | (Thrown e, s'') => (Thrown e, s'')
        end
    end.

(** [xs.map(f)] where [f] may throw: stops at the first throw. *)
Fixpoint array_map {A B} (f : A -> completion B) (xs : list A) : completion (list B) :=
  match xs with
  | [] => Normal []
  | x :: xs' =>
      match f x with
      | Thrown e => Thrown e
      | Normal y =>
          match array_map f xs' with
          | Thrown e => Thrown e
          | Normal ys => Normal (y :: ys)
          end
      end
  end.

(** [x || d] on an optional number: [undefined], [null] and [0] are falsy. *)
Definition or_number (x : option Z) (d : Z) : Z :=
  match x with
  | Some n => if n =? 0 then d else n
  | None => d
  end.

(** [xs.sort(cmp)].  [Array.prototype.sort] is stable and, for a
    consistent comparator, returns the sorted permutation in which [a]
    precedes [b] whenever [cmp a b < 0]; a stable insertion sort computes
    that permutation. *)
Fixpoint sort_insert {A} (cmp : A -> A -> Z) (x : A) (l : list A) : list A :=
  match l with
  | [] => [x]
  | y :: l' =>
      if 0 <? cmp x y then y :: sort_insert cmp x l' else x :: y :: l'
  end.

Definition array_sort {A} (cmp : A -> A -> Z) (l : list A) : list A :=
  foldr (sort_insert cmp) [] l.

End Js.

Declare Scope js_scope.
Delimit Scope js_scope with js.
Notation "x <- m ;; k" := (Js.bind m (fun x => k))
  (at level 100, m at next level, right associativity) : js_scope.
Notation "m ;; k" := (Js.bind m (fun _ => k))
  (at level 100, right associativity) : js_scope.

(** * The records of the source *)

(** A Firestore [Timestamp]; the component reads [seconds] only.  Seconds
    are integers well inside the exactly representable range of a
    JavaScript number, so [Z] is exact for them. *)
Record Timestamp : Type := { seconds : Z; nanoseconds : Z }.

Inductive MovementType : Type := type_in | type_out.

(** [interface Movement].  Quantities and prices are JavaScript numbers
    that the component only copies, never computes with. *)
Module Movement.
Record t : Type := mk {
  id : string;
  type : MovementType;
  quantity : Q;
  price : Q;
  totalPrice : Q;
  date : option Timestamp;
  description : string;
  warehouse : string;
  previousQuantity : Q;
  newQuantity : Q;
  previousAveragePrice : Q;
  newAveragePrice : Q;
  supplier : option string
}.
End Movement.

(** The fields of a stored [productMovements] document: those of
    [interface Movement] other than [id], which is the document key, and
    [productId], which the query filters on. *)
Module MovementDoc.
Record t : Type := mk {
  productId : string;
  type : MovementType;
  quantity : Q;
  price : Q;
  totalPrice : Q;
  date : option Timestamp;
  description : string;
  warehouse : string;
  previousQuantity : Q;
  newQuantity : Q;
  previousAveragePrice : Q;
  newAveragePrice : Q;
  supplier : option string
}.
End MovementDoc.

(** The fields of [Product] that the component reads or writes. *)
Module Product.
(** A stored [products] document. *)
Record doc : Type := mk_doc {
  name : string;
  unit : string;
  quantity : Q;
  averagePurchasePrice : Q
}.
(** The [product] prop: the document together with its key. *)
Record t : Type := mk { id : string; fields : doc }.
End Product.

(** * The document store *)

Module Firestore.
Import Js.

(** The two collections the component touches. *)
Record Store : Type := mkStore {
  products : gmap string Product.doc;
  productMovements : gmap string MovementDoc.t
}.

(** The writes the component puts in a batch:
    [batch.update(doc(db, 'products', id), {quantity, averagePurchasePrice})]
    and [batch.delete(doc(db, 'productMovements', id))]. *)
Inductive Write : Type :=
| UpdateProduct (productId : string) (quantity averagePurchasePrice : Q)
| DeleteMovement (movementId : string).

(** [writeBatch(db)], [batch.update], [batch.delete]: the batch object
    collects its writes in call order. *)
Definition writeBatch : list Write := [].

Definition batch_update (batch : list Write) (productId : string)
    (quantity averagePurchasePrice : Q) : list Write :=
  batch ++ [UpdateProduct productId quantity averagePurchasePrice].

Definition batch_delete (batch : list Write) (movementId : string) : list Write :=
  batch ++ [DeleteMovement movementId].

(** One write against the store.  An update changes the two given fields
    of an existing document and fails when the document does not exist; a
    delete succeeds whether or not the document exists. *)
Definition apply_write (w : Write) (s : Store) : option Store :=
  match w with
  | UpdateProduct pid q a =>
      match products s !! pid with
      | Some d =>
          Some (mkStore
                  (<[pid := Product.mk_doc (Product.name d) (Product.unit d) q a]>
                     (products s))
                  (productMovements s))
      | None => None
      end
  | DeleteMovement mid =>
      Some (mkStore (products s) (delete mid (productMovements s)))
  end.

Fixpoint apply_batch (batch : list Write) (s : Store) : option Store :=
  match batch with
  | [] => Some s
  | w :: batch' =>
      match apply_write w s with
      | Some s' => apply_batch batch' s'
      | None => None
      end
  end.

(** What the backend does with a commit: it is reachable and takes the
    batch, or the commit is rejected (permission, network). *)
Inductive Backend : Type :=
| Accepts
| Rejects (reason : string).

(** [batch.commit()]: all writes of the batch or none. *)
Definition commit (backend : Backend) (batch : list Write) (s : Store) : completion Store :=
  match backend with
  | Rejects reason => Thrown reason
  | Accepts =>
      match apply_batch batch s with
      | Some s' => Normal s'
      | None => Thrown "not-found"
      end
  end.

(** A document of a query snapshot: its key, and [data()], which the
    snapshot callback guards with [try]. *)
Record QueryDocumentSnapshot : Type := mkDoc {
  doc_id : string;
  doc_data : completion MovementDoc.t
}.

(** [query(collection(db, 'productMovements'), where('productId', '==', pid))]
    evaluated on a store. *)
Definition query_movements (pid : string) (s : Store) : list QueryDocumentSnapshot :=
  (fun kd : string * MovementDoc.t => mkDoc kd.1 (Normal kd.2))
    <$> filter (fun kd : string * MovementDoc.t => MovementDoc.productId kd.2 = pid)
          (map_to_list (productMovements s)).

(** The listeners registered with [onSnapshot]: each call issues a new
    handle; [registered] maps the handles still listening to the product id
    they query. *)
Record Listeners : Type := mkListeners {
  issued : nat;
  registered : gmap nat string
}.

Definition noListeners : Listeners := mkListeners 0 ∅.

Definition onSnapshot (pid : string) (ls : Listeners) : nat * Listeners :=
  let h := issued ls in (h, mkListeners (S h) (<[h := pid]> (registered ls))).

Definition unsubscribe (h : nat) (ls : Listeners) : Listeners :=
  mkListeners (issued ls) (delete h (registered ls)).

End Firestore.

(** * The movement feed: the body of the snapshot callback *)

Module Feed.
Import Js.

(** [{ id: doc.id, ...doc.data(), date: doc.data().date }].  The
    development covers stores whose documents hold no [id] field of their
    own, the shape of [MovementDoc.t]: for these the spread leaves [doc.id]
    in place, while a stored [id] field would replace it.  [data()] returns
    the same fields each time it is called. *)
Definition normalize (d : Firestore.QueryDocumentSnapshot) : completion Movement.t :=
  match Firestore.doc_data d with
  | Thrown e => Thrown e
  | Normal x =>
      Normal (Movement.mk (Firestore.doc_id d)
                (MovementDoc.type x) (MovementDoc.quantity x) (MovementDoc.price x)
                (MovementDoc.totalPrice x) (MovementDoc.date x)
                (MovementDoc.description x) (MovementDoc.warehouse x)
                (MovementDoc.previousQuantity x) (MovementDoc.newQuantity x)
                (MovementDoc.previousAveragePrice x) (MovementDoc.newAveragePrice x)
                (MovementDoc.supplier x))
  end.

(** [a.date?.seconds || 0] *)
Definition dateSeconds (a : Movement.t) : Z :=
  or_number (seconds <$> Movement.date a) 0.

(** [(a, b) => dateB - dateA] *)
Definition compareByDate (a b : Movement.t) : Z :=
  let dateA := dateSeconds a in
  let dateB := dateSeconds b in
  dateB - dateA.

(** The [try] block of the callback: map, cast, sort. *)
Definition movementsData (docs : list Firestore.QueryDocumentSnapshot)
  : completion (list Movement.t) :=
  match array_map normalize docs with
  | Thrown e => Thrown e
  | Normal ms => Normal (array_sort compareByDate ms)
  end.

End Feed.

(** * The component *)

Module ProductHistory.
Import Js.

(** The five [useState] cells. *)
Record State : Type := mkState {
  movements : list Movement.t;
  loading : bool;
  showPasswordPrompt : bool;
  selectedMovement : option Movement.t;
  swipedMovementId : option string
}.

Definition initialState : State :=
  mkState [] true false None None.

Inductive Notification : Type :=
| SuccessNotification (message : string)
| ErrorNotification (message : string).

(** What the handlers act on outside the component: the store, the batches
    handed to [commit] (whatever their outcome), the notifications shown and
    the lines written with [console.error], each oldest first. *)
Record World : Type := mkWorld {
  store : Firestore.Store;
  submitted : list (list Firestore.Write);
  notifications : list Notification;
  console : list string
}.

(** Handlers run over the component state and the world. *)
Definition Handler (A : Type) : Type := M (State * World) A.

Definition setMovements (v : list Movement.t) : Handler unit :=
  modify (fun c =>
    (mkState v (loading c.1) (showPasswordPrompt c.1) (selectedMovement c.1)
       (swipedMovementId c.1), c.2)).

Definition setLoading (v : bool) : Handler unit :=
  modify (fun c =>
    (mkState (movements c.1) v (showPasswordPrompt c.1) (selectedMovement c.1)
       (swipedMovementId c.1), c.2)).

Definition setShowPasswordPrompt (v : bool) : Handler unit :=
  modify (fun c =>
    (mkState (movements c.1) (loading c.1) v (selectedMovement c.1)
       (swipedMovementId c.1), c.2)).

Definition setSelectedMovement (v : option Movement.t) : Handler unit :=
  modify (fun c =>
    (mkState (movements c.1) (loading c.1) (showPasswordPrompt c.1) v
       (swipedMovementId c.1), c.2)).

Definition setSwipedMovementId (v : option string) : Handler unit :=
  modify (fun c =>
    (mkState (movements c.1) (loading c.1) (showPasswordPrompt c.1)
       (selectedMovement c.1) v, c.2)).

Definition console_error (line : string) : Handler unit :=
  modify (fun c =>
    (c.1, mkWorld (store c.2) (submitted c.2) (notifications c.2)
            (console c.2 ++ [line]))).

Definition showSuccessNotification (message : string) : Handler unit :=
  modify (fun c =>
    (c.1, mkWorld (store c.2) (submitted c.2)
            (notifications c.2 ++ [SuccessNotification message]) (console c.2))).

Definition showErrorNotification (message : string) : Handler unit :=
  modify (fun c =>
    (c.1, mkWorld (store c.2) (submitted c.2)
            (notifications c.2 ++ [ErrorNotification message]) (console c.2))).

(** [await batch.commit()]: the batch is handed to the store; the store
    changes only when the commit completes normally. *)
Definition batch_commit (backend : Firestore.Backend) (batch : list Firestore.Write)
  : Handler unit :=
  fun c =>
    let w := mkWorld (store c.2) (submitted c.2 ++ [batch]) (notifications c.2)
               (console c.2) in
    match Firestore.commit backend batch (store c.2) with
    | Normal s' =>
        (Normal tt, (c.1, mkWorld s' (submitted w) (notifications w) (console w)))
    | Thrown e => (Thrown e, (c.1, w))
    end.

(** ** Gesture reveal *)

Definition handleSwipe (movementId : string) : Handler unit :=
  (c <- get ;;
   if bool_decide (swipedMovementId c.1 = Some movementId)
   then setSwipedMovementId None
   else setSwipedMovementId (Some movementId))%js.

(** [onSwipedLeft] and [onSwipedRight] have the same body: the id of the
    closest row of the event target, if any and if not the empty string. *)
Definition onSwiped (target : option string) : Handler unit :=
  match target with
  | Some movementId =>
      if bool_decide (movementId = "") then ret tt else handleSwipe movementId
  | None => ret tt
  end.

(** The row of [record] shows its delete button when
    [swipedMovementId === record.id]. *)
Definition revealed (st : State) (record : Movement.t) : bool :=
  bool_decide (swipedMovementId st = Some (Movement.id record)).

(** ** The snapshot callbacks *)

Definition onNext (docs : list Firestore.QueryDocumentSnapshot) : Handler unit :=
  (try_catch
     (fun c =>
        match Feed.movementsData docs with
        | Normal ms => setMovements ms c
        | Thrown e => (Thrown e, c)
        end)
     (fun error =>
        console_error "Error processing movements:" ;;
        setMovements []) ;;
   setLoading false)%js.

Definition onError (error : string) : Handler unit :=
  (console_error "Error in movements subscription:" ;;
   setMovements [] ;;
   setLoading false)%js.

(** ** Delete *)

(** The quantity written back, as the source computes it. *)
Definition newQuantity (selectedMovement : Movement.t) : Q :=
  match Movement.type selectedMovement with
  | type_in => Movement.previousQuantity selectedMovement
  | type_out => Movement.previousQuantity selectedMovement
  end.

(** The batch built between [writeBatch(db)] and [batch.commit()]. *)
Definition deleteBatch (product : Product.t) (selectedMovement : Movement.t)
  : list Firestore.Write :=
  let batch := Firestore.writeBatch in
  let batch := Firestore.batch_update batch (Product.id product)
                 (newQuantity selectedMovement)
                 (Movement.previousAveragePrice selectedMovement) in
  Firestore.batch_delete batch (Movement.id selectedMovement).

(** [handleDelete].  The handler is [async]; it is modelled as one step,
    with the outcome of the awaited commit given by [backend]: a single call
    from its start to the end of its [finally], with nothing else running
    while the commit is pending.  The calls that build the batch
    ([writeBatch], [doc], [batch.update], [batch.delete]) throw only on an
    invalid document id and are taken as total. *)
Definition handleDelete (product : Product.t) (backend : Firestore.Backend)
    (isAuthenticated : bool) : Handler unit :=
  (c <- get ;;
   (* if (!isAuthenticated || !selectedMovement) { ...; return; } *)
   match isAuthenticated, selectedMovement c.1 with
   | true, Some m =>
       try_finally
         (try_catch
            (batch_commit backend (deleteBatch product m) ;;
             showSuccessNotification "Операция успешно удалена")
            (fun error =>
               console_error "Error deleting movement:" ;;
               showErrorNotification "Ошибка при удалении операции"))
         (setShowPasswordPrompt false ;;
          setSelectedMovement None ;;
          setSwipedMovementId None)
   | _, _ =>
       setShowPasswordPrompt false ;;
       setSelectedMovement None
   end)%js.

Definition handleDeleteClick (movement : Movement.t) : Handler unit :=
  (setSelectedMovement (Some movement) ;;
   setShowPasswordPrompt true)%js.

(** The [onClose] of the password prompt. *)
Definition promptOnClose : Handler unit :=
  (setShowPasswordPrompt false ;;
   setSelectedMovement None)%js.

(** The [onSuccess] of the password prompt. *)
Definition promptOnSuccess (product : Product.t) (backend : Firestore.Backend)
  : Handler unit :=
  handleDelete product backend true.

End ProductHistory.

(** * The mounted component: effect life cycle and event dispatch *)

Module View.
Import Js ProductHistory.

(** The props the component reads ([onClose] belongs to the parent). *)
Record Props : Type := mkProps {
  isOpen : bool;
  product : Product.t
}.

(** A mounted instance: its latest props (whose [product.id] is the
    dependency of the effect), its state, and the [unsubscribe] handle the
    effect's cleanup closes over. *)
Record Instance : Type := mkInstance {
  props : Props;
  state : State;
  cleanup : nat
}.

Record System : Type := mkSystem {
  instance : option Instance;
  world : World;
  listeners : Firestore.Listeners
}.

Inductive Event : Type :=
| Mount (p : Props)
| Render (p : Props)
| Unmount
| SnapshotNext (docs : list Firestore.QueryDocumentSnapshot)
| SnapshotError (error : string)
| Swiped (row : nat)
| DeleteClick (row : nat)
| PromptClose
| PromptSuccess (backend : Firestore.Backend).

(** Running a handler of the instance; the completion is dropped, the
    state and world it reached are kept. *)
Definition dispatch (h : Handler unit) (i : Instance) (sys : System) : System :=
  let c := (h (state i, world sys)).2 in
  mkSystem (Some (mkInstance (props i) c.1 (cleanup i))) c.2 (listeners sys).

(** The rows are rendered when the view is open and no longer loading. *)
Definition rowsShown (i : Instance) : bool :=
  isOpen (props i) && negb (loading (state i)).

(** The password prompt is rendered when the view is open and
    [showPasswordPrompt] is set. *)
Definition promptShown (i : Instance) : bool :=
  isOpen (props i) && showPasswordPrompt (state i).

(** [useEffect(() => { ...; return () => unsubscribe(); }, [product.id])]:
    the effect runs after mount and after a render whose [product.id]
    differs from that of the previous render, the cleanup before each
    re-run and on unmount. *)
Definition step (e : Event) (sys : System) : System :=
  match e, instance sys with
  | Mount p, None =>
      let '(h, ls) := Firestore.onSnapshot (Product.id (product p)) (listeners sys) in
      mkSystem (Some (mkInstance p initialState h)) (world sys) ls
  | Mount _, Some _ => sys
  | Render p, Some i =>
      if bool_decide (Product.id (product p) = Product.id (product (props i)))
      then mkSystem (Some (mkInstance p (state i) (cleanup i))) (world sys) (listeners sys)
      else
        let ls0 := Firestore.unsubscribe (cleanup i) (listeners sys) in
        let '(h, ls) := Firestore.onSnapshot (Product.id (product p)) ls0 in
        mkSystem (Some (mkInstance p (state i) h)) (world sys) ls
  | Unmount, Some i =>
      mkSystem None (world sys) (Firestore.unsubscribe (cleanup i) (listeners sys))
  | SnapshotNext docs, Some i => dispatch (onNext docs) i sys
  | SnapshotError error, Some i => dispatch (onError error) i sys
  | Swiped row, Some i =>
      if rowsShown i
      then dispatch (onSwiped (Movement.id <$> movements (state i) !! row)) i sys
      else sys
  | DeleteClick row, Some i =>
      if rowsShown i
      then match movements (state i) !! row with
           | Some record => dispatch (handleDeleteClick record) i sys
           | None => sys
           end
      else sys
  | PromptClose, Some i =>
      if promptShown i then dispatch promptOnClose i sys else sys
  | PromptSuccess backend, Some i =>
      if promptShown i
      then dispatch (promptOnSuccess (product (props i)) backend) i sys
      else sys
  | _, None => sys
  end.

Definition run (es : list Event) (sys : System) : System :=
  foldl (fun s e => step e s) sys es.

Definition initialSystem (w : World) : System := mkSystem None w Firestore.noListeners.

Definition isSubscriptionEvent (e : Event) : bool :=
  match e with
  | SnapshotNext _ | SnapshotError _ => true
  | _ => false
  end.

Definition isUnmount (e : Event) : bool :=
  match e with
  | Unmount => true
  | _ => false
  end.

(** The loading flag the view shows, if it is mounted. *)
Definition loadingOf (sys : System) : option bool :=
  (fun i => loading (state i)) <$> instance sys.

(** The view is closed when it is unmounted or rendered with [isOpen]
    false (the component then returns [null]). *)
Definition viewClosed (sys : System) : bool :=
  match instance sys with
  | None => true
  | Some i => negb (isOpen (props i))
  end.

(** No listener is registered. *)
Definition released (sys : System) : Prop :=
  Firestore.registered (listeners sys) = ∅.

(** Exactly the listener of the mounted instance, for the product it shows,
    is registered; none when nothing is mounted. *)
Definition subscribedToCurrent (sys : System) : Prop :=
  Firestore.registered (listeners sys)
  = match instance sys with
    | Some i => {[ cleanup i := Product.id (product (props i)) ]}
    | None => ∅
    end.

(** The invariant of the effect: the registered listeners are exactly the
    one of the mounted instance, and its handle has been issued. *)
Definition effectInvariant (sys : System) : Prop :=
  subscribedToCurrent sys
  /\ forall i, instance sys = Some i -> (cleanup i < Firestore.issued (listeners sys))%nat.

End View.

(** * Reference notions the properties are stated with *)

Module Reference.
Import Js ProductHistory.

(** Descending by a key: the later entry never has the larger key. *)
Definition descending {A : Type} (key : A -> Z) (a b : A) : Prop := key b <= key a.

(** The restored quantity as the design describes it: the quantity before
    the movement, whatever its direction. *)
Definition restoredQuantity (m : Movement.t) : Q := Movement.previousQuantity m.

(** [t1] is an earlier instant than [t2], to the nanosecond. *)
Definition timestampBefore (t1 t2 : Timestamp) : Prop :=
  seconds t1 < seconds t2
  \/ (seconds t1 = seconds t2 /\ nanoseconds t1 < nanoseconds t2).

(** No record is published ahead of a record with a later timestamp. *)
Definition nonIncreasingByTimestamp (l : list Movement.t) : Prop :=
  forall i j a b ta tb,
    l !! i = Some a -> l !! j = Some b -> (i < j)%nat ->
    Movement.date a = Some ta -> Movement.date b = Some tb ->
    ~ timestampBefore ta tb.

(** Every record without a timestamp comes after every record with one. *)
Definition missingLast (l : list Movement.t) : Prop :=
  forall i j a b,
    l !! i = Some a -> l !! j = Some b ->
    Movement.date a = None -> Movement.date b <> None -> (j < i)%nat.

(** The state a handler leaves behind. *)
Definition stateAfter (h : Handler unit) (st : State) (w : World) : State :=
  (h (st, w)).2.1.

Definition worldAfter (h : Handler unit) (st : State) (w : World) : World :=
  (h (st, w)).2.2.

Definition completionOf (h : Handler unit) (st : State) (w : World) : completion unit :=
  (h (st, w)).1.

End Reference.

(** * Sample data *)

Module Sample.
Import Js Firestore ProductHistory View.
Local Open Scope Q_scope.

Definition movementDoc (pid : string) (ty : MovementType) (date : option Z)
    (qty previousQuantity newQuantity previousAveragePrice newAveragePrice : Q)
  : MovementDoc.t :=
  MovementDoc.mk pid ty qty 10 (qty * 10)
    ((fun s => Build_Timestamp s 0) <$> date)
    "delivery" "main" previousQuantity newQuantity
    previousAveragePrice newAveragePrice None.

(** Product with quantity 100 at average price 10, and the receipt of 20
    units that took it there from 80 at average price 9. *)
Definition cement : Product.t :=
  Product.mk "p1" (Product.mk_doc "Cement" "kg" 100 10).

Definition receipt : MovementDoc.t :=
  movementDoc "p1" type_in (Some 1700000000%Z) 20 80 100 9 10.

Definition issue : MovementDoc.t :=
  movementDoc "p1" type_out (Some 1600000000%Z) 5 85 80 9 9.

Definition store0 : Store :=
  mkStore {[ "p1" := Product.fields cement ]}
          (<["m1" := receipt]> (<["m2" := issue]> ∅)).

(** [store0] after the receipt is deleted and the product restored. *)
Definition store1 : Store :=
  mkStore {[ "p1" := Product.mk_doc "Cement" "kg" 80 9 ]}
          (<["m2" := issue]> ∅).

(** The same movements with the product document gone. *)
Definition storeNoProduct : Store :=
  mkStore ∅ (<["m1" := receipt]> (<["m2" := issue]> ∅)).

Definition world0 : World := mkWorld store0 [] [] [].

Definition worldNoProduct : World := mkWorld storeNoProduct [] [] [].

Definition receiptRow : Movement.t :=
  Movement.mk "m1" type_in 20 10 (20 * 10)
    (Some (Build_Timestamp 1700000000 0)) "delivery" "main" 80 100 9 10 None.

Definition issueRow : Movement.t :=
  Movement.mk "m2" type_out 5 10 (5 * 10)
    (Some (Build_Timestamp 1600000000 0)) "delivery" "main" 85 80 9 9 None.

(** The state after the feed loaded and the receipt was swiped and picked. *)
Definition receiptSelected : State :=
  mkState [receiptRow; issueRow] false true (Some receiptRow) (Some "m1").

(** The prompt is up with nothing selected. *)
Definition nothingSelected : State :=
  mkState [receiptRow; issueRow] false true None (Some "m1").

(** A snapshot with an undated record first and a record dated one second
    before the epoch second. *)
Definition undated : QueryDocumentSnapshot :=
  mkDoc "a" (Normal (movementDoc "p1" type_in None 1 0 1 0 10)).

Definition beforeEpoch : QueryDocumentSnapshot :=
  mkDoc "b" (Normal (movementDoc "p1" type_in (Some (-1)%Z) 1 1 2 10 10)).

Definition dated : QueryDocumentSnapshot :=
  mkDoc "c" (Normal (movementDoc "p1" type_in (Some 1700000000%Z) 1 2 3 10 10)).

(** A document whose [data()] throws. *)
Definition broken : QueryDocumentSnapshot :=
  mkDoc "x" (Thrown "data unavailable").

(** Another product, to switch the view to. *)
Definition lime : Product.t :=
  Product.mk "p2" (Product.mk_doc "Lime" "kg" 40 7).

Definition openView : Props := mkProps true cement.
Definition openLimeView : Props := mkProps true lime.
Definition closedView : Props := mkProps false cement.

End Sample.

(** * What the component renders *)

Module Render.
Import Js ProductHistory.

(** [formatDate].  [timestamp.toDate()], [isValid] and [format] belong to
    Firestore and date-fns; they are taken as given, the first and the last
    as calls that may throw.  A JavaScript [Date] is left abstract. *)
Section FormatDate.
Context {Date : Type}.
Variable toDate : Timestamp -> completion Date.
Variable isValid : Date -> bool.
Variable format : Date -> completion string.

Definition formatDate (timestamp : option Timestamp) : Handler string :=
  match timestamp with
  | None => ret ""
  | Some t =>
      fun c =>
        match toDate t with
        | Thrown e => (Thrown e, c)
        | Normal date =>
            if negb (isValid date) then ret "" c
            else
              try_catch
                (fun c' =>
                   match format date with
                   | Normal text => (Normal text, c')
                   | Thrown e => (Thrown e, c')
                   end)
                (fun error =>
                   console_error "Error formatting date:" ;;
                   ret "")%js c
        end
  end.

End FormatDate.

(** The list area of the dialog: the spinner while loading, the "history
    is empty" message for an empty list, otherwise one row per movement,
    each with whether its delete button is shown. *)
Inductive Body : Type :=
| Spinner
| EmptyMessage
| Rows (rows : list (Movement.t * bool)).

Definition body (st : State) : Body :=
  if loading st then Spinner
  else if (length (movements st) =? 0)%nat then EmptyMessage
  else Rows ((fun record => (record, revealed st record)) <$> movements st).

End Render.

(** * Notions for runs of the mounted view *)

Module Runs.
Import Js ProductHistory View.

Definition isPromptSuccess (e : Event) : bool :=
  match e with
  | PromptSuccess _ => true
  | _ => false
  end.

(** The prompt flag is set exactly when a movement is selected. *)
Definition promptConsistent (st : State) : Prop :=
  showPasswordPrompt st = bool_decide (is_Some (selectedMovement st)).

(** The one shape of batch the component builds. *)
Definition restoreBatch (batch : list Firestore.Write) : Prop :=
  exists pid q a mid,
    batch = [Firestore.UpdateProduct pid q a; Firestore.DeleteMovement mid].

(** From store [s] to store [s']: no document was created, no product
    was removed or had its name or unit changed, and the movements still
    stored are as they were. *)
Definition onlyRestores (s s' : Firestore.Store) : Prop :=
  dom (Firestore.products s') = dom (Firestore.products s)
  /\ Firestore.productMovements s' ⊆ Firestore.productMovements s
  /\ forall k d',
       Firestore.products s' !! k = Some d' ->
       exists d, Firestore.products s !! k = Some d
                 /\ Product.name d' = Product.name d
                 /\ Product.unit d' = Product.unit d.


(** How many confirmations of the prompt a run holds. *)
Definition confirmations (es : list Event) : nat :=
  length (List.filter isPromptSuccess es).

(** Two handlers in sequence. *)
Definition andThen (h1 h2 : Handler unit) : Handler unit :=
  (h1 ;; h2)%js.

End Runs.

(** * More sample data *)

Module Scenario.
Import Js Firestore ProductHistory View.
Local Open Scope Q_scope.

(** Three rows whose seconds are pairwise distinct, out of order. *)
Definition early : Movement.t :=
  Movement.mk "e" type_in 1 10 10 (Some (Build_Timestamp 100 0))
    "delivery" "main" 0 1 0 10 None.

Definition middle : Movement.t :=
  Movement.mk "m" type_out 1 10 10 (Some (Build_Timestamp 200 0))
    "issue" "main" 1 0 10 10 None.

Definition late : Movement.t :=
  Movement.mk "l" type_in 2 10 20 (Some (Build_Timestamp 300 0))
    "delivery" "main" 0 2 10 10 None.

(** Two documents dated in the same second, the older one delivered
    first. *)
Definition sameSecondOlder : QueryDocumentSnapshot :=
  mkDoc "older"
    (Normal (MovementDoc.mk "p1" type_in 1 10 10
               (Some (Build_Timestamp 5 100000000))
               "delivery" "main" 0 1 0 10 None)).

Definition sameSecondNewer : QueryDocumentSnapshot :=
  mkDoc "newer"
    (Normal (MovementDoc.mk "p1" type_out 1 10 10
               (Some (Build_Timestamp 5 900000000))
               "issue" "main" 1 0 10 10 None)).

(** A view that is open, loaded, with nothing pending. *)
Definition loaded : State :=
  mkState [Sample.receiptRow; Sample.issueRow] false false None None.

Definition loadedSystem : System :=
  mkSystem (Some (mkInstance Sample.openView loaded 0)) Sample.world0
    (mkListeners 1 {[ 0%nat := "p1" ]}).

(** Stand-ins for [toDate], [isValid] and [format]: dates are seconds,
    valid from the epoch on, and [format] fails on second 0. *)
Definition toDateSeconds (t : Timestamp) : completion Z :=
  if (seconds t <? -1000)%Z then Thrown "toDate is not a function"
  else Normal (seconds t).

Definition validFromEpoch (d : Z) : bool := (0 <=? d)%Z.

Definition formatSeconds (d : Z) : completion string :=
  if (d =? 0)%Z then Thrown "Invalid time value" else Normal "some day".

End Scenario.

(** * Properties of the comparator sort *)

Section ArraySort.
Context {A : Type} (key : A -> Z) (cmp : A -> A -> Z).
Hypothesis cmp_key : forall a b, cmp a b = key b - key a.

Local Abbreviation descending := (Reference.descending key).

Lemma sort_insert_Permutation x l :
  Permutation (x :: l) (Js.sort_insert cmp x l).
Proof.
  induction l as [|y l IH]; simpl; [reflexivity|].
  destruct (0 <? cmp x y); [|reflexivity].
  rewrite perm_swap. by constructor.
Qed.

Lemma array_sort_Permutation l : Permutation l (Js.array_sort cmp l).
Proof.
  induction l as [|x l IH]; simpl; [constructor|].
  rewrite <- sort_insert_Permutation. by constructor.
Qed.

Lemma sort_insert_descending x l :
  StronglySorted descending l ->
  StronglySorted descending (Js.sort_insert cmp x l).
Proof.
  induction l as [|y l IH]; simpl; intros Hl.
  - repeat constructor.
  - apply StronglySorted_inv in Hl as [Hl Hy].
    destruct (Z.ltb_spec 0 (cmp x y)) as [Hlt|Hge]; rewrite cmp_key in *.
    + constructor; [by apply IH|].
      rewrite <- sort_insert_Permutation.
      constructor; [unfold Reference.descending; lia|done].
    + constructor; [by constructor|].
      constructor; [unfold Reference.descending; lia|].
      eapply Forall_impl; [exact Hy|].
      unfold Reference.descending. intros z Hz. lia.
Qed.

Lemma array_sort_descending l :
  StronglySorted descending (Js.array_sort cmp l).
Proof.
  induction l as [|x l IH]; simpl; [constructor|].
  by apply sort_insert_descending.
Qed.

(** Stability: records with equal keys keep the order they arrived in. *)
Lemma sort_insert_stable k x l :
  filter (fun a => key a = k) (Js.sort_insert cmp x l)
  = filter (fun a => key a = k) (x :: l).
Proof.
  induction l as [|y l IH]; simpl; [done|].
  destruct (Z.ltb_spec 0 (cmp x y)) as [Hlt|Hge]; [|done].
  rewrite cmp_key in Hlt.
  rewrite !filter_cons in *. rewrite IH.
  repeat case_decide; try done; lia.
Qed.

Lemma array_sort_stable k l :
  filter (fun a => key a = k) (Js.array_sort cmp l)
  = filter (fun a => key a = k) l.
Proof.
  induction l as [|x l IH]; simpl; [done|].
  rewrite sort_insert_stable, !filter_cons, IH. done.
Qed.

(** Read by position: an earlier entry never has the smaller key. *)
Lemma descending_lookup l i j a b :
  StronglySorted descending l ->
  l !! i = Some a -> l !! j = Some b -> (i < j)%nat -> key b <= key a.
Proof.
  intros Hl. revert i j.
  induction Hl as [|x l Hl IH Hx]; intros i j Hi Hj Hij; [done|].
  destruct j as [|j]; [lia|]. simpl in Hj.
  destruct i as [|i]; simpl in Hi.
  - injection Hi as <-.
    rewrite Forall_forall in Hx. apply Hx.
    apply list_elem_of_lookup. eauto.
  - apply (IH i j); [done|done|lia].
Qed.

End ArraySort.

(** * The movement feed *)

Section FeedFacts.
Import Js Firestore Feed ProductHistory.

Lemma dateSeconds_spec a :
  dateSeconds a =
    match Movement.date a with
    | Some t => seconds t
    | None => 0
    end.
Proof.
  unfold dateSeconds, or_number.
  destruct (Movement.date a) as [t|]; simpl; [|done].
  destruct (Z.eqb_spec (seconds t) 0); congruence.
Qed.

Lemma compareByDate_key a b : compareByDate a b = dateSeconds b - dateSeconds a.
Proof. reflexivity. Qed.

Lemma array_map_Thrown {X Y} (f : X -> completion Y) xs x e :
  x ∈ xs -> f x = Thrown e -> exists e', array_map f xs = Thrown e'.
Proof.
  induction 1 as [x xs|x y xs Hin IH]; simpl; intros Hx.
  - rewrite Hx. eauto.
  - destruct (f y); [|eauto].
    destruct (IH Hx) as [e' ->]. eauto.
Qed.

Lemma array_map_elem {X Y} (f : X -> completion Y) xs ys y :
  array_map f xs = Normal ys -> y ∈ ys -> exists x, x ∈ xs /\ f x = Normal y.
Proof.
  revert ys. induction xs as [|x xs IH]; simpl; intros ys H Hy.
  - injection H as <-. by apply not_elem_of_nil in Hy.
  - destruct (f x) as [y0|] eqn:Hfx; [|done].
    destruct (array_map f xs) as [ys0|]; [|done].
    injection H as <-. apply elem_of_cons in Hy as [->|Hy].
    + exists x. split; [left|done].
    + destruct (IH ys0 eq_refl Hy) as (x' & Hx' & Hf).
      exists x'. split; [by right|done].
Qed.

End FeedFacts.

Section FeedOrder.
Import Js Firestore Feed ProductHistory Reference.

(** What the snapshot callback publishes when every [data()] returns. *)
Lemma onNext_Normal docs ms st w :
  array_map normalize docs = Normal ms ->
  onNext docs (st, w)
  = (Normal tt,
     (mkState (array_sort compareByDate ms) false (showPasswordPrompt st)
        (selectedMovement st) (swipedMovementId st), w)).
Proof.
  intros H. unfold onNext, bind, try_catch, movementsData. rewrite H. reflexivity.
Qed.

(** C3, as the code has it: for every snapshot whose documents all
    normalise, the callback replaces the published list by the snapshot
    sorted with the comparator, whatever was published before.  The result
    is a permutation of the snapshot in which, of two records whose
    timestamps fall in different seconds, the later one comes first, and in
    which a record without a timestamp counts as second 0: it comes after
    every record dated after the epoch second and before every record dated
    before it.  Nothing is said here about records of one and the same
    second. *)
Theorem feed_publishes_snapshot_sorted_by_seconds docs ms st w :
  array_map normalize docs = Normal ms ->
  let published := array_sort compareByDate ms in
  onNext docs (st, w)
  = (Normal tt,
     (mkState published false (showPasswordPrompt st) (selectedMovement st)
        (swipedMovementId st), w))
  /\ Permutation ms published
  /\ (forall i j a b,
        published !! i = Some a -> published !! j = Some b -> (i < j)%nat ->
        dateSeconds b <= dateSeconds a)
  /\ (forall a,
        dateSeconds a = match Movement.date a with
                        | Some t => seconds t
                        | None => 0
                        end)
  /\ (forall i j a b ta tb,
        published !! i = Some a -> published !! j = Some b ->
        Movement.date a = Some ta -> Movement.date b = Some tb ->
        seconds ta < seconds tb ->
        (j < i)%nat)
  /\ (forall i j a b t,
        published !! i = Some a -> published !! j = Some b ->
        Movement.date a = None -> Movement.date b = Some t -> 0 < seconds t ->
        (j < i)%nat)
  /\ (forall i j a b t,
        published !! i = Some a -> published !! j = Some b ->
        Movement.date a = None -> Movement.date b = Some t -> seconds t < 0 ->
        (i < j)%nat).
Proof.
  intros H published.
  assert (Hsorted : StronglySorted (descending dateSeconds) published)
    by apply (array_sort_descending dateSeconds compareByDate compareByDate_key).
  assert (Hfirst : forall i j a b,
             published !! i = Some a -> published !! j = Some b ->
             dateSeconds a < dateSeconds b -> (j < i)%nat).
  { intros i j a b Hi Hj Hlt.
    destruct (decide (j < i)%nat) as [|Hge]; [done|exfalso].
    destruct (decide (i = j)) as [->|Hne];
      [rewrite Hi in Hj; injection Hj as ->; lia|].
    assert (Hle : dateSeconds b <= dateSeconds a)
      by (eapply (descending_lookup dateSeconds published i j); [done..|lia]).
    lia. }
  split; [by apply onNext_Normal|].
  split; [apply (array_sort_Permutation compareByDate)|].
  split; [intros i j a b; by apply descending_lookup|].
  split; [apply dateSeconds_spec|].
  split; [|split].
  - intros i j a b ta tb Hi Hj Ha Hb Hlt.
    apply (Hfirst i j a b Hi Hj). rewrite !dateSeconds_spec, Ha, Hb. exact Hlt.
  - intros i j a b t Hi Hj Ha Hb Ht.
    apply (Hfirst i j a b Hi Hj). rewrite !dateSeconds_spec, Ha, Hb. exact Ht.
  - intros i j a b t Hi Hj Ha Hb Ht.
    apply (Hfirst j i b a Hj Hi). rewrite !dateSeconds_spec, Ha, Hb. exact Ht.
Qed.

Lemma feed_publishes_snapshot_sorted_by_seconds_witness :
  array_map normalize [Sample.undated; Sample.beforeEpoch; Sample.dated]
  = Normal [Movement.mk "a" type_in 1 10 (1 * 10) None "delivery" "main" 0 1 0 10 None;
            Movement.mk "b" type_in 1 10 (1 * 10) (Some (Build_Timestamp (-1) 0))
              "delivery" "main" 1 2 10 10 None;
            Movement.mk "c" type_in 1 10 (1 * 10) (Some (Build_Timestamp 1700000000 0))
              "delivery" "main" 2 3 10 10 None]
  /\ movements
       (stateAfter (onNext [Sample.undated; Sample.beforeEpoch; Sample.dated])
          initialState Sample.world0)
     = [Movement.mk "c" type_in 1 10 (1 * 10) (Some (Build_Timestamp 1700000000 0))
          "delivery" "main" 2 3 10 10 None;
        Movement.mk "a" type_in 1 10 (1 * 10) None "delivery" "main" 0 1 0 10 None;
        Movement.mk "b" type_in 1 10 (1 * 10) (Some (Build_Timestamp (-1) 0))
          "delivery" "main" 1 2 10 10 None].
Proof.
  split; [reflexivity|].
  unfold stateAfter.
  rewrite (proj1 (feed_publishes_snapshot_sorted_by_seconds
                    [Sample.undated; Sample.beforeEpoch; Sample.dated] _
                    initialState Sample.world0 eq_refl)).
  reflexivity.
Defined.

(** C3 as worded fails twice over.  An undated record is published ahead
    of a record dated before the epoch, so undated records are not always
    last; and of two records dated in the same second the older one,
    delivered first, stays first, so the order is not non-increasing by
    timestamp. *)
Lemma published_order_not_by_timestamp :
  ~ missingLast
      (movements
         (stateAfter (onNext [Sample.undated; Sample.beforeEpoch])
            initialState Sample.world0))
  /\ ~ nonIncreasingByTimestamp
         (movements
            (stateAfter (onNext [Scenario.sameSecondOlder; Scenario.sameSecondNewer])
               initialState Sample.world0)).
Proof.
  split.
  - intros H.
    specialize (H 0%nat 1%nat _ _ eq_refl eq_refl eq_refl).
    simpl in H. assert (1 < 0)%nat by (apply H; discriminate). lia.
  - intros H.
    apply (H 0%nat 1%nat _ _ _ _ eq_refl eq_refl ltac:(lia) eq_refl eq_refl).
    right. simpl. lia.
Qed.

(** X16: records dated in the same second keep their snapshot order:
    among the records of any one second the published list has them in the
    order they arrived in. *)
Lemma feed_order_stable k ms :
  filter (fun a => dateSeconds a = k) (array_sort compareByDate ms)
  = filter (fun a => dateSeconds a = k) ms.
Proof. apply (array_sort_stable dateSeconds compareByDate compareByDate_key). Qed.

End FeedOrder.

Section DeleteQuantity.
Import Js Firestore ProductHistory Reference.

(** The source's branching expression, and the batch built from it. *)
Lemma newQuantity_batch (product : Product.t) (m : Movement.t) :
  newQuantity m = Movement.previousQuantity m
  /\ deleteBatch product m
     = [UpdateProduct (Product.id product) (Movement.previousQuantity m)
          (Movement.previousAveragePrice m);
        DeleteMovement (Movement.id m)].
Proof.
  assert (H : newQuantity m = Movement.previousQuantity m).
  { unfold newQuantity. by destruct (Movement.type m). }
  split; [exact H|].
  unfold deleteBatch, batch_delete, batch_update, writeBatch.
  rewrite H. reflexivity.
Qed.

(** C6: the quantity the delete workflow writes is the movement's previous
    quantity for either direction: the branching expression of the source
    equals the non-branching one, and the batch carries that value. *)
Theorem newQuantity_ignores_direction (product : Product.t) (m : Movement.t) :
  newQuantity m = restoredQuantity m
  /\ deleteBatch product m
     = [UpdateProduct (Product.id product) (Movement.previousQuantity m)
          (Movement.previousAveragePrice m);
        DeleteMovement (Movement.id m)].
Proof. exact (newQuantity_batch product m). Qed.

End DeleteQuantity.

Section GestureReveal.
Import Js Firestore Feed ProductHistory Reference.

(** Among rows with distinct ids, at most one is revealed. *)
Lemma revealed_rows_at_most_one st (rows : list Movement.t) :
  NoDup (Movement.id <$> rows) ->
  (length (List.filter (revealed st) rows) <= 1)%nat.
Proof.
  induction rows as [|r rows IH]; simpl; [lia|].
  rewrite NoDup_cons. intros [Hr Hrows].
  destruct (revealed st r) eqn:Hrev; [|by apply IH].
  assert (Hnone : List.filter (revealed st) rows = []).
  { clear IH Hrows. induction rows as [|r' rows IH']; simpl; [done|].
    destruct (revealed st r') eqn:Hrev'.
    - exfalso. apply Hr. unfold revealed in *.
      apply bool_decide_eq_true in Hrev, Hrev'.
      assert (Movement.id r = Movement.id r') as -> by congruence.
      simpl. left.
    - apply IH'. intros Hin. apply Hr. simpl. by right. }
  rewrite Hnone. simpl. lia.
Qed.


(** C9: the reveal state is one optional id, so two revealed rows have the
    same id, and among rows with distinct ids at most one is revealed; a
    swipe on the revealed id hides it, a swipe on any other id makes that
    id the only revealed one.  Nothing else changes. *)
Theorem swipe_reveals_at_most_one (st : State) (w : World) (movementId : string) :
  (forall r1 r2,
      revealed st r1 = true -> revealed st r2 = true ->
      Movement.id r1 = Movement.id r2)
  /\ (forall rows,
        NoDup (Movement.id <$> rows) ->
        (length (List.filter (revealed st) rows) <= 1)%nat)
  /\ handleSwipe movementId (st, w)
     = (Normal tt,
        (mkState (movements st) (loading st) (showPasswordPrompt st)
           (selectedMovement st)
           (if bool_decide (swipedMovementId st = Some movementId)
            then None else Some movementId), w))
  /\ (swipedMovementId st = Some movementId ->
      swipedMovementId (stateAfter (handleSwipe movementId) st w) = None
      /\ forall r, revealed (stateAfter (handleSwipe movementId) st w) r = false)
  /\ (swipedMovementId st <> Some movementId ->
      swipedMovementId (stateAfter (handleSwipe movementId) st w) = Some movementId
      /\ forall r, revealed (stateAfter (handleSwipe movementId) st w) r
                   = bool_decide (Movement.id r = movementId)).
Proof.
  assert (Hrun : handleSwipe movementId (st, w)
     = (Normal tt,
        (mkState (movements st) (loading st) (showPasswordPrompt st)
           (selectedMovement st)
           (if bool_decide (swipedMovementId st = Some movementId)
            then None else Some movementId), w))).
  { unfold handleSwipe, bind, get. simpl. by case_bool_decide. }
  split; [|split; [apply revealed_rows_at_most_one|split; [exact Hrun|split]]].
  - unfold revealed. intros r1 r2 H1 H2.
    apply bool_decide_eq_true in H1, H2. congruence.
  - intros Hsw. unfold stateAfter. rewrite Hrun. simpl.
    rewrite bool_decide_eq_true_2 by done. split; [done|].
    intros r. reflexivity.
  - intros Hsw. unfold stateAfter. rewrite Hrun. simpl.
    rewrite bool_decide_eq_false_2 by done. split; [done|].
    intros r. unfold revealed. simpl.
    apply bool_decide_ext. split; congruence.
Qed.

Lemma swipe_reveals_at_most_one_witness :
  (swipedMovementId Sample.receiptSelected = Some "m1"
   /\ swipedMovementId
        (stateAfter (handleSwipe "m1") Sample.receiptSelected Sample.world0) = None)
  /\ (swipedMovementId Sample.receiptSelected <> Some "m2"
      /\ swipedMovementId
           (stateAfter (handleSwipe "m2") Sample.receiptSelected Sample.world0)
         = Some "m2")
  /\ (revealed Sample.receiptSelected Sample.receiptRow = true
      /\ revealed Sample.receiptSelected Sample.issueRow = false).
Proof.
  split; [|split].
  - split; [reflexivity|].
    apply (proj1 (proj2 (proj2 (proj2 (swipe_reveals_at_most_one
                                  Sample.receiptSelected Sample.world0 "m1"))))).
    reflexivity.
  - split; [discriminate|].
    apply (proj2 (proj2 (proj2 (proj2 (swipe_reveals_at_most_one
                                  Sample.receiptSelected Sample.world0 "m2"))))).
    discriminate.
  - split; reflexivity.
Defined.

End GestureReveal.

(** * The store *)

Section StoreFacts.
Import Js Firestore.

(** The batch of the delete workflow applies exactly when the product
    document exists. *)
Lemma apply_batch_restore pid q a mid s d :
  products s !! pid = Some d ->
  apply_batch [UpdateProduct pid q a; DeleteMovement mid] s
  = Some (mkStore (<[pid := Product.mk_doc (Product.name d) (Product.unit d) q a]>
                     (products s))
                  (delete mid (productMovements s))).
Proof. intros H. simpl. rewrite H. reflexivity. Qed.

Lemma apply_batch_restore_None pid q a mid s :
  products s !! pid = None ->
  apply_batch [UpdateProduct pid q a; DeleteMovement mid] s = None.
Proof. intros H. simpl. rewrite H. reflexivity. Qed.

(** A commit completes normally exactly when the backend accepts it and
    the whole batch applies. *)
Lemma commit_Normal_iff backend batch s s' :
  commit backend batch s = Normal s'
  <-> backend = Accepts /\ apply_batch batch s = Some s'.
Proof.
  unfold commit. destruct backend; [|split; [done|intros [? _]; done]].
  destruct (apply_batch batch s); split.
  - intros [= ->]. done.
  - intros [_ [= ->]]. done.
  - done.
  - intros [_ ?]. done.
Qed.

Lemma elem_of_query_movements pid s x :
  x ∈ query_movements pid s
  <-> exists d, productMovements s !! doc_id x = Some d
             /\ MovementDoc.productId d = pid
             /\ doc_data x = Normal d.
Proof.
  unfold query_movements. rewrite list_elem_of_fmap. split.
  - intros ([k d] & -> & Hin). apply list_elem_of_filter in Hin as [Hpid Hin].
    apply elem_of_map_to_list in Hin. exists d. done.
  - intros (d & Hd & Hpid & Hdata). exists (doc_id x, d). split.
    + destruct x as [k c]. simpl in *. by rewrite Hdata.
    + apply list_elem_of_filter. split; [done|].
      by apply elem_of_map_to_list.
Qed.

End StoreFacts.

(** * The delete workflow *)

Section DeleteWorkflow.
Import Js Firestore Feed ProductHistory Reference.

(** Every row of a feed loaded from the store is a stored movement of the
    queried product, under its document key. *)
Lemma feed_of_store_rows pid s st w r :
  r ∈ movements (stateAfter (onNext (query_movements pid s)) st w) ->
  exists d, productMovements s !! Movement.id r = Some d
            /\ MovementDoc.productId d = pid.
Proof.
  unfold stateAfter, onNext, bind, try_catch, movementsData.
  destruct (array_map normalize (query_movements pid s)) as [ms|e] eqn:Hmap;
    simpl; [|intros H; by apply not_elem_of_nil in H].
  intros Hr.
  rewrite <- (array_sort_Permutation compareByDate ms) in Hr.
  destruct (array_map_elem _ _ _ _ Hmap Hr) as (x & Hx & Hnorm).
  apply elem_of_query_movements in Hx as (d & Hd & Hpid & Hdata).
  unfold normalize in Hnorm. rewrite Hdata in Hnorm.
  injection Hnorm as <-. simpl. eauto.
Qed.

(** The two ways [handleDelete] ends once a movement is selected and the
    prompt reported success. *)
Lemma handleDelete_committed product backend st w m s' :
  selectedMovement st = Some m ->
  commit backend (deleteBatch product m) (store w) = Normal s' ->
  handleDelete product backend true (st, w)
  = (Normal tt,
     (mkState (movements st) (loading st) false None None,
      mkWorld s' (submitted w ++ [deleteBatch product m])
        (notifications w ++ [SuccessNotification "Операция успешно удалена"])
        (console w))).
Proof.
  intros Hsel Hcommit.
  unfold handleDelete, bind, get, try_finally, try_catch, batch_commit.
  simpl. rewrite Hsel. simpl. rewrite Hcommit. reflexivity.
Qed.

Lemma handleDelete_failed product backend st w m e :
  selectedMovement st = Some m ->
  commit backend (deleteBatch product m) (store w) = Thrown e ->
  handleDelete product backend true (st, w)
  = (Normal tt,
     (mkState (movements st) (loading st) false None None,
      mkWorld (store w) (submitted w ++ [deleteBatch product m])
        (notifications w ++ [ErrorNotification "Ошибка при удалении операции"])
        (console w ++ ["Error deleting movement:"]))).
Proof.
  intros Hsel Hcommit.
  unfold handleDelete, bind, get, try_finally, try_catch, batch_commit.
  simpl. rewrite Hsel. simpl. rewrite Hcommit. reflexivity.
Qed.

Lemma handleDelete_aborted product backend isAuthenticated st w :
  isAuthenticated = false \/ selectedMovement st = None ->
  handleDelete product backend isAuthenticated (st, w)
  = (Normal tt,
     (mkState (movements st) (loading st) false None (swipedMovementId st), w)).
Proof.
  intros H. unfold handleDelete, bind, get. simpl.
  destruct isAuthenticated, (selectedMovement st); try reflexivity;
    destruct H; discriminate.
Qed.

(** C1: with a movement [m] selected and the prompt reporting success,
    [handleDelete] completes normally and hands the store exactly one
    batch, holding the update of the product to [m]'s previous quantity and
    previous average price and the deletion of [m]'s document, whatever the
    direction of [m].  When that commit succeeds, the store is the one the
    commit produced: the product carries exactly those two values (its other
    fields and all other documents are untouched), [m]'s document is gone,
    one success notification is shown, and no later snapshot of the store,
    for any product, and no feed loaded from one, contains [m]'s id. *)
Theorem delete_restores_previous_snapshot product backend st w m :
  selectedMovement st = Some m ->
  let st' := stateAfter (handleDelete product backend true) st w in
  let w' := worldAfter (handleDelete product backend true) st w in
  completionOf (handleDelete product backend true) st w = Normal tt
  /\ submitted w'
     = submitted w
       ++ [[UpdateProduct (Product.id product) (Movement.previousQuantity m)
              (Movement.previousAveragePrice m);
            DeleteMovement (Movement.id m)]]
  /\ movements st' = movements st
  /\ showPasswordPrompt st' = false
  /\ selectedMovement st' = None
  /\ swipedMovementId st' = None
  /\ (forall s',
        commit backend (deleteBatch product m) (store w) = Normal s' ->
        store w' = s'
        /\ (exists d,
              products (store w) !! Product.id product = Some d
              /\ products (store w') !! Product.id product
                 = Some (Product.mk_doc (Product.name d) (Product.unit d)
                           (Movement.previousQuantity m)
                           (Movement.previousAveragePrice m)))
        /\ productMovements (store w') !! Movement.id m = None
        /\ (forall k, k <> Product.id product ->
              products (store w') !! k = products (store w) !! k)
        /\ (forall k, k <> Movement.id m ->
              productMovements (store w') !! k = productMovements (store w) !! k)
        /\ notifications w'
           = notifications w ++ [SuccessNotification "Операция успешно удалена"]
        /\ (forall pid x,
              x ∈ query_movements pid (store w') -> doc_id x <> Movement.id m)
        /\ (forall pid st2 w2 r,
              r ∈ movements
                    (stateAfter (onNext (query_movements pid (store w'))) st2 w2) ->
              Movement.id r <> Movement.id m)).
Proof.
  intros Hsel st' w'.
  assert (Hshape : completionOf (handleDelete product backend true) st w = Normal tt
                   /\ submitted w' = submitted w ++ [deleteBatch product m]
                   /\ st' = mkState (movements st) (loading st) false None None).
  { unfold st', w', completionOf, stateAfter, worldAfter.
    destruct (commit backend (deleteBatch product m) (store w)) as [s'|e] eqn:Hc.
    - by rewrite (handleDelete_committed _ _ _ _ _ _ Hsel Hc).
    - by rewrite (handleDelete_failed _ _ _ _ _ _ Hsel Hc). }
  destruct Hshape as (Hdone & Hsub & Hst).
  rewrite (proj2 (newQuantity_batch product m)) in Hsub.
  rewrite Hst. simpl.
  do 6 (split; [done|]).
  intros s' Hcommit.
  pose proof (handleDelete_committed product backend st w m s' Hsel Hcommit) as Hrun.
  assert (Hw : w' = mkWorld s' (submitted w ++ [deleteBatch product m])
                      (notifications w ++ [SuccessNotification "Операция успешно удалена"])
                      (console w))
    by (unfold w', worldAfter; by rewrite Hrun).
  apply commit_Normal_iff in Hcommit as [_ Happly].
  rewrite (proj2 (newQuantity_batch product m)) in Happly.
  destruct (products (store w) !! Product.id product) as [d|] eqn:Hd;
    [|by rewrite apply_batch_restore_None in Happly].
  rewrite (apply_batch_restore _ _ _ _ _ d Hd) in Happly.
  injection Happly as <-.
  rewrite Hw. simpl.
  split; [done|].
  split; [exists d; split; [done|apply lookup_insert_eq]|].
  split; [apply lookup_delete_eq|].
  split; [intros k Hk; by apply lookup_insert_ne|].
  split; [intros k Hk; by apply lookup_delete_ne|].
  split; [done|].
  split.
  - intros pid x Hx Heq.
    apply elem_of_query_movements in Hx as (d0 & Hd0 & _).
    simpl in Hd0. rewrite Heq, lookup_delete_eq in Hd0. done.
  - intros pid st2 w2 r Hr Heq.
    apply feed_of_store_rows in Hr as (d0 & Hd0 & _).
    simpl in Hd0. rewrite Heq, lookup_delete_eq in Hd0. done.
Qed.

Lemma delete_restores_previous_snapshot_witness :
  selectedMovement Sample.receiptSelected = Some Sample.receiptRow
  /\ commit Accepts (deleteBatch Sample.cement Sample.receiptRow) (store Sample.world0)
     = Normal Sample.store1
  /\ store (worldAfter (handleDelete Sample.cement Accepts true)
              Sample.receiptSelected Sample.world0) = Sample.store1
  /\ products Sample.store1 !! "p1" = Some (Product.mk_doc "Cement" "kg" 80 9)
  /\ productMovements Sample.store1 !! "m1" = None.
Proof.
  assert (Hc : commit Accepts (deleteBatch Sample.cement Sample.receiptRow)
                 (store Sample.world0) = Normal Sample.store1)
    by (vm_compute; reflexivity).
  split; [reflexivity|]. split; [exact Hc|].
  split; [|split; vm_compute; reflexivity].
  destruct (delete_restores_previous_snapshot
              Sample.cement Accepts Sample.receiptSelected Sample.world0
              Sample.receiptRow eq_refl) as (_ & _ & _ & _ & _ & _ & Hok).
  exact (proj1 (Hok Sample.store1 Hc)).
Defined.

(** When the commit fails: the backend rejected it, or the product
    document does not exist. *)
Lemma commit_delete_Thrown product backend m s e :
  commit backend (deleteBatch product m) s = Thrown e ->
  backend = Rejects e
  \/ (backend = Accepts /\ products s !! Product.id product = None).
Proof.
  unfold commit. destruct backend as [|reason]; [|intros [= ->]; by left].
  rewrite (proj2 (newQuantity_batch product m)).
  destruct (products s !! Product.id product) as [d|] eqn:Hd; [|by right].
  by rewrite (apply_batch_restore _ _ _ _ _ d Hd).
Qed.

(** C2: when the commit of the delete batch fails, [handleDelete] still
    completes normally; the store is the one it started from, so the
    product's quantity and average price and the movement document are as
    they were; exactly one notification is added, an error; and the prompt,
    the selection and the revealed row are cleared. *)
Theorem failed_delete_changes_nothing product backend st w m e :
  selectedMovement st = Some m ->
  commit backend (deleteBatch product m) (store w) = Thrown e ->
  let st' := stateAfter (handleDelete product backend true) st w in
  let w' := worldAfter (handleDelete product backend true) st w in
  completionOf (handleDelete product backend true) st w = Normal tt
  /\ store w' = store w
  /\ products (store w') !! Product.id product
     = products (store w) !! Product.id product
  /\ productMovements (store w') !! Movement.id m
     = productMovements (store w) !! Movement.id m
  /\ notifications w'
     = notifications w ++ [ErrorNotification "Ошибка при удалении операции"]
  /\ console w' = console w ++ ["Error deleting movement:"]
  /\ movements st' = movements st
  /\ showPasswordPrompt st' = false
  /\ selectedMovement st' = None
  /\ swipedMovementId st' = None.
Proof.
  intros Hsel Hcommit st' w'.
  pose proof (handleDelete_failed product backend st w m e Hsel Hcommit) as Hrun.
  unfold st', w', stateAfter, worldAfter, completionOf. rewrite Hrun. simpl.
  repeat split.
Qed.

Lemma failed_delete_changes_nothing_witness :
  (selectedMovement Sample.receiptSelected = Some Sample.receiptRow
   /\ commit (Rejects "unavailable") (deleteBatch Sample.cement Sample.receiptRow)
        (store Sample.world0) = Thrown "unavailable"
   /\ store (worldAfter (handleDelete Sample.cement (Rejects "unavailable") true)
               Sample.receiptSelected Sample.world0) = Sample.store0)
  /\ (commit Accepts (deleteBatch Sample.cement Sample.receiptRow)
        (store Sample.worldNoProduct) = Thrown "not-found"
      /\ store (worldAfter (handleDelete Sample.cement Accepts true)
                  Sample.receiptSelected Sample.worldNoProduct)
         = Sample.storeNoProduct).
Proof.
  split.
  - split; [reflexivity|]. split; [reflexivity|].
    exact (proj1 (proj2 (failed_delete_changes_nothing
                           Sample.cement (Rejects "unavailable")
                           Sample.receiptSelected Sample.world0 Sample.receiptRow
                           "unavailable" eq_refl eq_refl))).
  - split; [reflexivity|].
    exact (proj1 (proj2 (failed_delete_changes_nothing
                           Sample.cement Accepts
                           Sample.receiptSelected Sample.worldNoProduct
                           Sample.receiptRow "not-found" eq_refl eq_refl))).
Defined.

(** C4: when the prompt reports no authentication, by [handleDelete]
    called with [false] or by the prompt's own close handler, the handler
    completes normally, the world is untouched (no batch is handed to the
    store, the store, the notifications and the log are as before), the
    published list is unchanged, and the selected movement and the prompt
    flag are cleared. *)
Theorem declined_delete_writes_nothing product backend st w :
  handleDelete product backend false (st, w)
  = (Normal tt,
     (mkState (movements st) (loading st) false None (swipedMovementId st), w))
  /\ promptOnClose (st, w)
     = (Normal tt,
        (mkState (movements st) (loading st) false None (swipedMovementId st), w)).
Proof.
  split; [|reflexivity].
  apply handleDelete_aborted. by left.
Qed.

(** C10: called with [true] while nothing is selected, [handleDelete]
    hands no batch to the store and shows no notification: the world is
    untouched, the prompt flag is cleared and the selection stays empty. *)
Theorem delete_without_selection_writes_nothing product backend st w :
  selectedMovement st = None ->
  handleDelete product backend true (st, w)
  = (Normal tt,
     (mkState (movements st) (loading st) false None (swipedMovementId st), w)).
Proof.
  intros H. apply handleDelete_aborted. by right.
Qed.

Lemma delete_without_selection_writes_nothing_witness :
  selectedMovement Sample.nothingSelected = None
  /\ handleDelete Sample.cement Accepts true (Sample.nothingSelected, Sample.world0)
     = (Normal tt,
        (mkState [Sample.receiptRow; Sample.issueRow] false false None (Some "m1"),
         Sample.world0)).
Proof.
  split; [reflexivity|].
  exact (delete_without_selection_writes_nothing
           Sample.cement Accepts Sample.nothingSelected Sample.world0 eq_refl).
Defined.

End DeleteWorkflow.

(** * Failure of the feed *)

Section FeedFailure.
Import Js Firestore Feed ProductHistory Reference.

(** C5: the error callback of the subscription, and the snapshot callback
    on a snapshot in which some document's [data()] throws, both complete
    normally: nothing is thrown to the caller.  Each publishes the empty
    list, sets [loading] to false and writes one line to the error log;
    the store and the notifications are untouched. *)
Theorem feed_failure_publishes_empty_list st w docs d e error :
  d ∈ docs ->
  doc_data d = Thrown e ->
  onError error (st, w)
  = (Normal tt,
     (mkState [] false (showPasswordPrompt st) (selectedMovement st)
        (swipedMovementId st),
      mkWorld (store w) (submitted w) (notifications w)
        (console w ++ ["Error in movements subscription:"])))
  /\ onNext docs (st, w)
     = (Normal tt,
        (mkState [] false (showPasswordPrompt st) (selectedMovement st)
           (swipedMovementId st),
         mkWorld (store w) (submitted w) (notifications w)
           (console w ++ ["Error processing movements:"]))).
Proof.
  intros Hd He. split; [reflexivity|].
  assert (Hnorm : normalize d = Thrown e) by (unfold normalize; by rewrite He).
  destruct (array_map_Thrown normalize docs d e Hd Hnorm) as [e' Hmap].
  unfold onNext, bind, try_catch, movementsData. rewrite Hmap. reflexivity.
Qed.

Lemma feed_failure_publishes_empty_list_witness :
  Sample.broken ∈ [Sample.dated; Sample.broken; Sample.undated]
  /\ doc_data Sample.broken = Thrown "data unavailable"
  /\ onNext [Sample.dated; Sample.broken; Sample.undated]
       (Sample.receiptSelected, Sample.world0)
     = (Normal tt,
        (mkState [] false true (Some Sample.receiptRow) (Some "m1"),
         mkWorld Sample.store0 [] [] ["Error processing movements:"])).
Proof.
  assert (Hin : Sample.broken ∈ [Sample.dated; Sample.broken; Sample.undated])
    by (right; left).
  split; [exact Hin|]. split; [reflexivity|].
  exact (proj2 (feed_failure_publishes_empty_list
                  Sample.receiptSelected Sample.world0
                  [Sample.dated; Sample.broken; Sample.undated]
                  Sample.broken "data unavailable" "permission-denied"
                  Hin eq_refl)).
Defined.

End FeedFailure.

(** * The mounted view *)

Section ViewFacts.
Import Js Firestore Feed ProductHistory Reference View.

(** No handler other than the two subscription callbacks writes [loading]. *)
Lemma onSwiped_loading target st w :
  loading (stateAfter (onSwiped target) st w) = loading st.
Proof.
  unfold stateAfter, onSwiped. destruct target as [movementId|]; [|done].
  case_bool_decide; [done|].
  unfold handleSwipe, bind, get. simpl. by case_bool_decide.
Qed.

Lemma handleDelete_loading product backend isAuthenticated st w :
  loading (stateAfter (handleDelete product backend isAuthenticated) st w)
  = loading st.
Proof.
  unfold stateAfter.
  destruct isAuthenticated;
    [|by rewrite handleDelete_aborted by (by left)].
  destruct (selectedMovement st) as [m|] eqn:Hsel;
    [|by rewrite handleDelete_aborted by (by right)].
  destruct (commit backend (deleteBatch product m) (store w)) as [s'|e] eqn:Hc.
  - by rewrite (handleDelete_committed _ _ _ _ _ _ Hsel Hc).
  - by rewrite (handleDelete_failed _ _ _ _ _ _ Hsel Hc).
Qed.

Lemma dispatch_instance h i sys :
  instance (dispatch h i sys)
  = Some (mkInstance (props i) (stateAfter h (state i) (world sys)) (cleanup i)).
Proof. reflexivity. Qed.

(** A step other than an unmount keeps the view mounted; other than a
    subscription event it keeps [loading]; a subscription event clears it. *)
Lemma step_loading e sys i :
  instance sys = Some i ->
  isUnmount e = false ->
  exists i',
    instance (step e sys) = Some i'
    /\ loading (state i')
       = if isSubscriptionEvent e then false else loading (state i).
Proof.
  intros Hi Hu. unfold step. rewrite Hi.
  destruct e as [p|p| |docs|error|row|row| |backend];
    try discriminate Hu; cbv beta iota; cbn [isSubscriptionEvent].
  - eauto.
  - case_bool_decide; [eauto|].
    unfold onSnapshot. simpl. eauto.
  - eexists. split; [apply dispatch_instance|]. simpl.
    unfold stateAfter, onNext, bind, try_catch.
    by destruct (Feed.movementsData docs).
  - eexists. split; [apply dispatch_instance|]. done.
  - destruct (rowsShown i); [|eauto].
    eexists. split; [apply dispatch_instance|]. simpl. apply onSwiped_loading.
  - destruct (rowsShown i); [|eauto].
    destruct (movements (state i) !! row); [|eauto].
    eexists. split; [apply dispatch_instance|]. done.
  - destruct (promptShown i); [|eauto].
    eexists. split; [apply dispatch_instance|]. done.
  - destruct (promptShown i); [|eauto].
    eexists. split; [apply dispatch_instance|]. simpl. apply handleDelete_loading.
Qed.

Lemma run_app es1 es2 sys : run (es1 ++ es2) sys = run es2 (run es1 sys).
Proof. apply foldl_app. Qed.

Lemma run_cons e es sys : run (e :: es) sys = run es (step e sys).
Proof. reflexivity. Qed.

Lemma run_nil sys : run [] sys = sys.
Proof. reflexivity. Qed.

Lemma run_loading_preserved es sys i :
  instance sys = Some i ->
  forallb (fun e => negb (isSubscriptionEvent e) && negb (isUnmount e)) es = true ->
  exists i', instance (run es sys) = Some i'
             /\ loading (state i') = loading (state i).
Proof.
  revert sys i. induction es as [|e es IH]; intros sys i Hi Hes; [eauto|].
  simpl in Hes. apply andb_true_iff in Hes as [He Hes].
  apply andb_true_iff in He as [Hsub Hun].
  apply negb_true_iff in Hsub, Hun.
  destruct (step_loading e sys i Hi Hun) as (i1 & Hi1 & Hl1).
  rewrite Hsub in Hl1.
  destruct (IH (step e sys) i1 Hi1 Hes) as (i' & Hi' & Hl').
  exists i'. split; [exact Hi'|congruence].
Qed.

Lemma run_loading_false es sys i :
  instance sys = Some i ->
  loading (state i) = false ->
  forallb (fun e => negb (isUnmount e)) es = true ->
  exists i', instance (run es sys) = Some i' /\ loading (state i') = false.
Proof.
  revert sys i. induction es as [|e es IH]; intros sys i Hi Hl Hes; [eauto|].
  simpl in Hes. apply andb_true_iff in Hes as [Hun Hes].
  apply negb_true_iff in Hun.
  destruct (step_loading e sys i Hi Hun) as (i1 & Hi1 & Hl1).
  apply (IH (step e sys) i1 Hi1); [|done].
  rewrite Hl1. by destruct (isSubscriptionEvent e).
Qed.

(** C7: a freshly mounted view is loading, and stays so until the first
    event of its subscription; that event, a snapshot or an error, whichever
    comes first, clears the flag, and it stays cleared for as long as the
    view is mounted. *)
Theorem loading_cleared_by_first_subscription_event w ls p pre e post :
  forallb (fun e => negb (isSubscriptionEvent e) && negb (isUnmount e)) pre = true ->
  isSubscriptionEvent e = true ->
  forallb (fun e => negb (isUnmount e)) post = true ->
  let sys0 := mkSystem None w ls in
  loadingOf (run [Mount p] sys0) = Some true
  /\ loadingOf (run (Mount p :: pre) sys0) = Some true
  /\ loadingOf (run (Mount p :: pre ++ [e]) sys0) = Some false
  /\ loadingOf (run (Mount p :: pre ++ e :: post) sys0) = Some false.
Proof.
  intros Hpre He Hpost sys0.
  assert (Hmount : exists i, instance (step (Mount p) sys0) = Some i
                             /\ loading (state i) = true).
  { unfold step, sys0. simpl. eauto. }
  destruct Hmount as (i0 & Hi0 & Hl0).
  destruct (run_loading_preserved pre _ i0 Hi0 Hpre) as (i1 & Hi1 & Hl1).
  assert (Hue : isUnmount e = false) by (by destruct e).
  destruct (step_loading e _ i1 Hi1 Hue) as (i2 & Hi2 & Hl2).
  rewrite He in Hl2.
  destruct (run_loading_false post _ i2 Hi2 Hl2 Hpost) as (i3 & Hi3 & Hl3).
  unfold loadingOf. rewrite !run_cons, !run_app, !run_cons, !run_nil.
  rewrite Hi0, Hi1, Hi2, Hi3. simpl.
  rewrite Hl0, Hl1, Hl0, Hl2, Hl3. done.
Qed.

Lemma loading_cleared_by_first_subscription_event_witness :
  forallb (fun e => negb (isSubscriptionEvent e) && negb (isUnmount e))
    [Render Sample.closedView; Swiped 0] = true
  /\ isSubscriptionEvent (SnapshotError "permission-denied") = true
  /\ forallb (fun e => negb (isUnmount e))
       [Render Sample.openView; SnapshotNext [Sample.dated]; DeleteClick 0;
        PromptClose] = true
  /\ loadingOf
       (run (Mount Sample.openView
               :: [Render Sample.closedView; Swiped 0]
               ++ SnapshotError "permission-denied"
               :: [Render Sample.openView; SnapshotNext [Sample.dated];
                   DeleteClick 0; PromptClose])
          (mkSystem None Sample.world0 noListeners))
     = Some false.
Proof.
  split; [reflexivity|]. split; [reflexivity|]. split; [reflexivity|].
  exact (proj2 (proj2 (proj2 (loading_cleared_by_first_subscription_event
                                Sample.world0 noListeners Sample.openView
                                [Render Sample.closedView; Swiped 0]
                                (SnapshotError "permission-denied")
                                [Render Sample.openView; SnapshotNext [Sample.dated];
                                 DeleteClick 0; PromptClose]
                                eq_refl eq_refl eq_refl)))).
Defined.

Lemma dispatch_effectInvariant h i sys :
  instance sys = Some i -> effectInvariant sys -> effectInvariant (dispatch h i sys).
Proof.
  intros Hi [Hsub Hlt]. unfold effectInvariant, subscribedToCurrent in *.
  rewrite Hi in Hsub. simpl. split; [done|].
  intros i' [= <-]. simpl. by apply Hlt.
Qed.

Lemma step_effectInvariant e sys :
  effectInvariant sys -> effectInvariant (step e sys).
Proof.
  intros Hinv. unfold step.
  destruct (instance sys) as [i|] eqn:Hi.
  - destruct e as [p|p| |docs|error|row|row| |backend]; cbv beta iota;
      try (by apply dispatch_effectInvariant); try done.
    + destruct Hinv as [Hsub Hlt].
      unfold effectInvariant, subscribedToCurrent in *. rewrite Hi in Hsub.
      case_bool_decide as Hpid; simpl.
      * split; [by rewrite Hpid|]. intros i' [= <-]. simpl. by apply Hlt.
      * rewrite Hsub, delete_singleton_eq, insert_empty.
        split; [done|]. intros i' [= <-]. simpl. lia.
    + destruct Hinv as [Hsub Hlt].
      unfold effectInvariant, subscribedToCurrent in *. rewrite Hi in Hsub.
      simpl. rewrite Hsub, delete_singleton_eq. done.
    + destruct (rowsShown i); [by apply dispatch_effectInvariant|done].
    + destruct (rowsShown i); [|done].
      destruct (movements (state i) !! row);
        [by apply dispatch_effectInvariant|done].
    + destruct (promptShown i); [by apply dispatch_effectInvariant|done].
    + destruct (promptShown i); [by apply dispatch_effectInvariant|done].
  - destruct e as [p|p| |docs|error|row|row| |backend]; cbv beta iota; try done.
    destruct Hinv as [Hsub Hlt].
    unfold effectInvariant, subscribedToCurrent in *. rewrite Hi in Hsub.
    simpl. rewrite Hsub, insert_empty.
    split; [done|]. intros i' [= <-]. simpl. lia.
Qed.

Lemma run_effectInvariant es sys :
  effectInvariant sys -> effectInvariant (run es sys).
Proof.
  revert sys. induction es as [|e es IH]; intros sys Hinv; [done|].
  rewrite run_cons. apply IH. by apply step_effectInvariant.
Qed.

Lemma initial_effectInvariant w : effectInvariant (initialSystem w).
Proof. split; [reflexivity|]. intros i Hi. discriminate Hi. Qed.

(** C8, as the code has it: the subscription is tied to the mounted
    instance and its product id, not to [isOpen].  After any sequence of
    events from the unmounted view, the registered listeners are exactly
    one listener for the product id of the mounted instance, and none when
    nothing is mounted; unmounting releases it; a render with another
    product id releases the old listener and registers one for the new id. *)
Theorem subscription_follows_mounted_product w es :
  let sys := run es (initialSystem w) in
  subscribedToCurrent sys
  /\ released (step Unmount sys)
  /\ (forall i p,
        instance sys = Some i ->
        Product.id (product p) <> Product.id (product (props i)) ->
        registered (listeners (step (Render p) sys)) !! cleanup i = None
        /\ exists h, h <> cleanup i
             /\ registered (listeners (step (Render p) sys))
                = {[ h := Product.id (product p) ]}).
Proof.
  intros sys.
  assert (Hinv : effectInvariant sys)
    by apply run_effectInvariant, initial_effectInvariant.
  clearbody sys.
  split; [apply Hinv|]. split.
  - pose proof (step_effectInvariant Unmount sys Hinv) as [Hsub _].
    unfold released. rewrite Hsub. unfold step.
    destruct (instance sys) as [i|] eqn:Hi; simpl; [done|by rewrite Hi].
  - intros i p Hi Hpid. destruct Hinv as [Hsub Hlt].
    specialize (Hlt i Hi). unfold subscribedToCurrent in Hsub.
    rewrite Hi in Hsub. unfold step. rewrite Hi.
    rewrite bool_decide_eq_false_2 by done. simpl.
    rewrite Hsub, delete_singleton_eq, insert_empty.
    split; [apply lookup_singleton_ne; lia|].
    exists (issued (listeners sys)). split; [lia|done].
Qed.

Lemma subscription_follows_mounted_product_witness :
  instance (run [Mount Sample.openView; SnapshotNext [Sample.dated]]
              (initialSystem Sample.world0))
  = Some (mkInstance Sample.openView
            (mkState [Movement.mk "c" type_in 1 10 (1 * 10)
                        (Some (Build_Timestamp 1700000000 0))
                        "delivery" "main" 2 3 10 10 None]
               false false None None) 0)
  /\ Product.id (product Sample.openLimeView) <> Product.id (product Sample.openView)
  /\ registered
       (listeners
          (step (Render Sample.openLimeView)
             (run [Mount Sample.openView; SnapshotNext [Sample.dated]]
                (initialSystem Sample.world0)))) !! 0%nat = None.
Proof.
  assert (Hne : Product.id (product Sample.openLimeView)
                <> Product.id (product Sample.openView)) by discriminate.
  split; [reflexivity|]. split; [exact Hne|].
  exact (proj1 (proj2 (proj2 (subscription_follows_mounted_product
                                Sample.world0
                                [Mount Sample.openView; SnapshotNext [Sample.dated]]))
                  _ Sample.openLimeView eq_refl Hne)).
Defined.

(** C8 as worded fails: rendered with [isOpen] false the view is closed,
    yet its listener stays registered. *)
Lemma closed_view_keeps_listening :
  viewClosed (run [Mount Sample.openView; Render Sample.closedView]
                (initialSystem Sample.world0)) = true
  /\ ~ released (run [Mount Sample.openView; Render Sample.closedView]
                   (initialSystem Sample.world0)).
Proof.
  split; [reflexivity|].
  unfold released. intros H.
  assert (Hl : registered
                 (listeners (run [Mount Sample.openView; Render Sample.closedView]
                               (initialSystem Sample.world0))) !! 0%nat
               = Some "p1") by reflexivity.
  rewrite H in Hl. discriminate Hl.
Qed.

End ViewFacts.

(** * Further properties of the feed order *)

Section SortMore.
Context {A : Type} (key : A -> Z) (cmp : A -> A -> Z).
Hypothesis cmp_key : forall a b, cmp a b = key b - key a.

(** A list already in descending order is left as it is. *)
Lemma array_sort_of_descending l :
  StronglySorted (Reference.descending key) l -> Js.array_sort cmp l = l.
Proof.
  induction 1 as [|x l Hl IH Hx]; simpl; [done|].
  rewrite IH. destruct l as [|y l]; simpl; [done|].
  apply Forall_cons in Hx as [Hxy _]. unfold Reference.descending in Hxy.
  destruct (Z.ltb_spec 0 (cmp x y)) as [Hlt|_]; [|done].
  rewrite cmp_key in Hlt. lia.
Qed.

Lemma array_sort_idempotent l :
  Js.array_sort cmp (Js.array_sort cmp l) = Js.array_sort cmp l.
Proof.
  apply array_sort_of_descending.
  by apply (array_sort_descending key cmp cmp_key).
Qed.

(** With pairwise distinct keys the result depends only on which elements
    arrive, not on the order they arrive in. *)
Lemma array_sort_order_independent l1 l2 :
  NoDup (key <$> l1) -> l1 ≡ₚ l2 ->
  Js.array_sort cmp l1 = Js.array_sort cmp l2.
Proof.
  intros Hnd Hperm.
  apply (StronglySorted_unique_strong (Reference.descending key)).
  - intros x1 x2 Hx1 Hx2 H12 H21. unfold Reference.descending in *.
    assert (Hk : key x1 = key x2) by lia.
    rewrite <- (array_sort_Permutation cmp l1) in Hx1.
    rewrite <- (array_sort_Permutation cmp l2), <- Hperm in Hx2.
    clear -Hnd Hk Hx1 Hx2.
    induction l1 as [|y l1 IH]; [by apply not_elem_of_nil in Hx1|].
    simpl in Hnd. apply NoDup_cons in Hnd as [Hy Hnd].
    apply elem_of_cons in Hx1 as [->|Hx1], Hx2 as [->|Hx2]; [done| | |by apply IH].
    + exfalso. apply Hy. rewrite Hk. apply list_elem_of_fmap. eauto.
    + exfalso. apply Hy. rewrite <- Hk. apply list_elem_of_fmap. eauto.
  - by apply (array_sort_descending key cmp cmp_key).
  - by apply (array_sort_descending key cmp cmp_key).
  - by rewrite <- !(array_sort_Permutation cmp).
Qed.

End SortMore.

Section FeedMore.
Import Js Firestore Feed ProductHistory Reference.

(** X1: sorting is idempotent: a published list handed to the comparator
    sort again comes back unchanged. *)
Theorem published_order_is_a_fixpoint ms :
  array_sort compareByDate (array_sort compareByDate ms)
  = array_sort compareByDate ms.
Proof. apply (array_sort_idempotent dateSeconds compareByDate compareByDate_key). Qed.

(** X2: when no two records of a snapshot fall in the same second
    (counting an undated record as second 0), the published order does not
    depend on the order the store delivered the documents in. *)
Theorem published_order_ignores_delivery_order ms ms' :
  NoDup (dateSeconds <$> ms) -> ms ≡ₚ ms' ->
  array_sort compareByDate ms = array_sort compareByDate ms'.
Proof.
  apply (array_sort_order_independent dateSeconds compareByDate compareByDate_key).
Qed.

Lemma published_order_ignores_delivery_order_witness :
  NoDup (dateSeconds <$> [Scenario.early; Scenario.late; Scenario.middle])
  /\ [Scenario.early; Scenario.late; Scenario.middle]
       ≡ₚ [Scenario.middle; Scenario.early; Scenario.late]
  /\ array_sort compareByDate [Scenario.early; Scenario.late; Scenario.middle]
     = [Scenario.late; Scenario.middle; Scenario.early]
  /\ array_sort compareByDate [Scenario.middle; Scenario.early; Scenario.late]
     = [Scenario.late; Scenario.middle; Scenario.early].
Proof.
  assert (Hnd : NoDup (dateSeconds <$> [Scenario.early; Scenario.late; Scenario.middle])).
  { simpl. repeat (apply NoDup_cons; split); [| |  |apply NoDup_nil_2];
      rewrite ?elem_of_cons, ?elem_of_nil; vm_compute; intuition discriminate. }
  assert (Hperm : [Scenario.early; Scenario.late; Scenario.middle]
                    ≡ₚ [Scenario.middle; Scenario.early; Scenario.late]).
  { apply (Permutation_app_comm [Scenario.early; Scenario.late] [Scenario.middle]). }
  split; [exact Hnd|]. split; [exact Hperm|]. split; [reflexivity|].
  rewrite <- (published_order_ignores_delivery_order _ _ Hnd Hperm).
  reflexivity.
Defined.

End FeedMore.

(** * How the handlers compose *)

Section HandlerComposition.
Import Js Firestore Feed ProductHistory Reference Runs.

(** Whatever way [handleDelete] ends, it leaves the prompt closed and
    nothing selected. *)
Lemma handleDelete_clears product backend isAuthenticated st w :
  exists swiped w',
    handleDelete product backend isAuthenticated (st, w)
    = (Normal tt, (mkState (movements st) (loading st) false None swiped, w')).
Proof.
  destruct isAuthenticated;
    [|rewrite handleDelete_aborted by (by left); eauto].
  destruct (selectedMovement st) as [m|] eqn:Hsel;
    [|rewrite handleDelete_aborted by (by right); eauto].
  destruct (commit backend (deleteBatch product m) (store w)) as [s'|e] eqn:Hc.
  - rewrite (handleDelete_committed _ _ _ _ _ _ Hsel Hc). eauto.
  - rewrite (handleDelete_failed _ _ _ _ _ _ Hsel Hc). eauto.
Qed.

(** X5: picking a row for deletion and then closing the prompt is a round
    trip: when nothing was pending before, state and world are exactly as
    before the click. *)
Theorem click_then_cancel_restores_state record st w :
  showPasswordPrompt st = false ->
  selectedMovement st = None ->
  andThen (handleDeleteClick record) promptOnClose (st, w) = (Normal tt, (st, w)).
Proof.
  destruct st as [ms l sp sel sw]. simpl. intros -> ->. reflexivity.
Qed.

Lemma click_then_cancel_restores_state_witness :
  showPasswordPrompt Scenario.loaded = false
  /\ selectedMovement Scenario.loaded = None
  /\ andThen (handleDeleteClick Sample.receiptRow) promptOnClose
       (Scenario.loaded, Sample.world0)
     = (Normal tt, (Scenario.loaded, Sample.world0)).
Proof.
  split; [reflexivity|]. split; [reflexivity|].
  exact (click_then_cancel_restores_state Sample.receiptRow Scenario.loaded
           Sample.world0 eq_refl eq_refl).
Defined.

(** X6: two swipes on the same row.  They leave that row revealed if it was
    revealed before, and no row revealed otherwise: a row revealed
    elsewhere is hidden by them.  In particular they undo each other
    whenever no other row was revealed. *)
Theorem double_swipe movementId st w :
  andThen (handleSwipe movementId) (handleSwipe movementId) (st, w)
  = (Normal tt,
     (mkState (movements st) (loading st) (showPasswordPrompt st)
        (selectedMovement st)
        (if bool_decide (swipedMovementId st = Some movementId)
         then Some movementId else None), w))
  /\ (swipedMovementId st = None \/ swipedMovementId st = Some movementId ->
      andThen (handleSwipe movementId) (handleSwipe movementId) (st, w)
      = (Normal tt, (st, w))).
Proof.
  assert (Hrun : andThen (handleSwipe movementId) (handleSwipe movementId) (st, w)
          = (Normal tt,
             (mkState (movements st) (loading st) (showPasswordPrompt st)
                (selectedMovement st)
                (if bool_decide (swipedMovementId st = Some movementId)
                 then Some movementId else None), w))).
  { unfold andThen, handleSwipe, bind, get. simpl.
    case_bool_decide as H1; simpl.
    - reflexivity.
    - rewrite bool_decide_eq_true_2 by done. reflexivity. }
  split; [exact Hrun|].
  intros H. rewrite Hrun. destruct st as [ms l sp sel sw]. simpl in *.
  destruct H as [->| ->].
  - rewrite bool_decide_eq_false_2 by done. reflexivity.
  - rewrite bool_decide_eq_true_2 by done. reflexivity.
Qed.

Lemma double_swipe_witness :
  (swipedMovementId Scenario.loaded = None
   \/ swipedMovementId Scenario.loaded = Some "m1")
  /\ andThen (handleSwipe "m1") (handleSwipe "m1") (Scenario.loaded, Sample.world0)
     = (Normal tt, (Scenario.loaded, Sample.world0))
  /\ swipedMovementId
       (stateAfter (andThen (handleSwipe "m2") (handleSwipe "m2"))
          Sample.receiptSelected Sample.world0) = None.
Proof.
  assert (H : swipedMovementId Scenario.loaded = None
              \/ swipedMovementId Scenario.loaded = Some "m1") by (by left).
  split; [exact H|]. split.
  - exact (proj2 (double_swipe "m1" Scenario.loaded Sample.world0) H).
  - reflexivity.
Defined.

(** X7: what decides the outcome of a confirmed delete.  With a movement
    selected, the one notification shown is the success notification
    exactly when the backend accepts the commit and the product document
    exists, and the error notification otherwise.  Whether the movement's
    own document still exists plays no part. *)
Theorem delete_outcome product backend st w m :
  selectedMovement st = Some m ->
  notifications (worldAfter (handleDelete product backend true) st w)
  = notifications w
    ++ [match backend, products (store w) !! Product.id product with
        | Accepts, Some _ => SuccessNotification "Операция успешно удалена"
        | _, _ => ErrorNotification "Ошибка при удалении операции"
        end].
Proof.
  intros Hsel. unfold worldAfter.
  destruct (commit backend (deleteBatch product m) (store w)) as [s'|e] eqn:Hc.
  - rewrite (handleDelete_committed _ _ _ _ _ _ Hsel Hc). simpl.
    apply commit_Normal_iff in Hc as [-> Happly].
    rewrite (proj2 (newQuantity_batch product m)) in Happly.
    destruct (products (store w) !! Product.id product) eqn:Hd; [done|].
    by rewrite apply_batch_restore_None in Happly.
  - rewrite (handleDelete_failed _ _ _ _ _ _ Hsel Hc). simpl.
    destruct (commit_delete_Thrown _ _ _ _ _ Hc) as [->|[-> ->]]; done.
Qed.

Lemma delete_outcome_witness :
  selectedMovement Sample.receiptSelected = Some Sample.receiptRow
  /\ productMovements (store Sample.world0) !! "zz" = None
  /\ notifications
       (worldAfter (handleDelete Sample.cement Accepts true)
          (mkState [] false true
             (Some (Movement.mk "zz" type_out 1 1 1 None "" "" 5 4 3 3 None)) None)
          Sample.world0)
     = [SuccessNotification "Операция успешно удалена"]
  /\ notifications
       (worldAfter (handleDelete Sample.cement Accepts true)
          Sample.receiptSelected Sample.worldNoProduct)
     = [ErrorNotification "Ошибка при удалении операции"].
Proof.
  split; [reflexivity|]. split; [reflexivity|]. split.
  - exact (delete_outcome Sample.cement Accepts
             (mkState [] false true
                (Some (Movement.mk "zz" type_out 1 1 1 None "" "" 5 4 3 3 None)) None)
             Sample.world0 _ eq_refl).
  - exact (delete_outcome Sample.cement Accepts Sample.receiptSelected
             Sample.worldNoProduct _ eq_refl).
Defined.

End HandlerComposition.

(** * What the user sees *)

Section Rendering.
Import Js Firestore Feed ProductHistory Reference Render.
Context {Date : Type}.
Variable toDate : Timestamp -> completion Date.
Variable isValid : Date -> bool.
Variable format : Date -> completion string.

(** X8: [formatDate] shields the render from [format] but not from
    [toDate].  It throws exactly when [toDate] does (the call stands before
    the [try]).  It returns the formatted text when the date is valid and
    [format] returns, and the empty string in every other case: no
    timestamp, an invalid date, [format] throwing.  It writes one line to
    the error log when [format] throws and leaves everything else alone. *)
Theorem formatDate_behaviour timestamp st w :
  let r := formatDate toDate isValid format timestamp (st, w) in
  (forall e, r.1 = Thrown e <-> exists t, timestamp = Some t /\ toDate t = Thrown e)
  /\ (forall t d text,
        timestamp = Some t -> toDate t = Normal d -> isValid d = true ->
        format d = Normal text ->
        r.1 = Normal text)
  /\ (timestamp = None -> r.1 = Normal "")
  /\ (forall t d,
        timestamp = Some t -> toDate t = Normal d -> isValid d = false ->
        r.1 = Normal "")
  /\ (forall t d e,
        timestamp = Some t -> toDate t = Normal d -> isValid d = true ->
        format d = Thrown e ->
        r.1 = Normal "")
  /\ r.2.1 = st
  /\ store r.2.2 = store w
  /\ submitted r.2.2 = submitted w
  /\ notifications r.2.2 = notifications w
  /\ console r.2.2
     = console w
       ++ match timestamp with
          | Some t =>
              match toDate t with
              | Normal d =>
                  if isValid d
                  then match format d with
                       | Thrown _ => ["Error formatting date:"]
                       | Normal _ => []
                       end
                  else []
              | Thrown _ => []
              end
          | None => []
          end.
Proof.
  unfold formatDate.
  destruct timestamp as [t|]; simpl.
  2: { rewrite app_nil_r. repeat split; try done. intros (t & Ht & _). done. }
  destruct (toDate t) as [d|e0] eqn:Ht; simpl.
  2: { rewrite app_nil_r.
       repeat split; try done; try (intros; simplify_eq; congruence).
       - intros [= ->]. eauto.
       - intros (t' & ? & ?). simplify_eq. congruence. }
  destruct (isValid d) eqn:Hv; simpl.
  2: { rewrite app_nil_r.
       repeat split; try done; try (intros; simplify_eq; congruence).
       intros (t' & ? & ?). simplify_eq. congruence. }
  unfold try_catch. destruct (format d) as [text0|e1] eqn:Hf; simpl.
  - rewrite app_nil_r.
    repeat split; try done; try (intros; simplify_eq; congruence).
    intros (t' & ? & ?). simplify_eq. congruence.
  - repeat split; try done; try (intros; simplify_eq; congruence).
    intros (t' & ? & ?). simplify_eq. congruence.
Qed.

End Rendering.

Section RenderingFacts.
Import Js Firestore Feed ProductHistory Reference Render.

Lemma formatDate_behaviour_witness :
  (Scenario.toDateSeconds (Build_Timestamp 5 0) = Normal 5
   /\ Scenario.validFromEpoch 5 = true
   /\ Scenario.formatSeconds 5 = Normal "some day"
   /\ (formatDate Scenario.toDateSeconds Scenario.validFromEpoch Scenario.formatSeconds
         (Some (Build_Timestamp 5 0)) (initialState, Sample.world0)).1
      = Normal "some day")
  /\ (Scenario.toDateSeconds (Build_Timestamp 0 0) = Normal 0
      /\ Scenario.validFromEpoch 0 = true
      /\ Scenario.formatSeconds 0 = Thrown "Invalid time value"
      /\ (formatDate Scenario.toDateSeconds Scenario.validFromEpoch
            Scenario.formatSeconds
            (Some (Build_Timestamp 0 0)) (initialState, Sample.world0)).1
         = Normal "")
  /\ ((exists t, Some (Build_Timestamp (-2000) 0) = Some t
                 /\ Scenario.toDateSeconds t = Thrown "toDate is not a function")
      /\ (formatDate Scenario.toDateSeconds Scenario.validFromEpoch
            Scenario.formatSeconds
            (Some (Build_Timestamp (-2000) 0)) (initialState, Sample.world0)).1
         = Thrown "toDate is not a function").
Proof.
  assert (H : exists t, Some (Build_Timestamp (-2000) 0) = Some t
                /\ Scenario.toDateSeconds t = Thrown "toDate is not a function")
    by (eexists; split; reflexivity).
  split; [|split].
  - do 3 (split; [reflexivity|]).
    exact (proj1 (proj2 (formatDate_behaviour
                           Scenario.toDateSeconds Scenario.validFromEpoch
                           Scenario.formatSeconds (Some (Build_Timestamp 5 0))
                           initialState Sample.world0))
             (Build_Timestamp 5 0) 5%Z "some day" eq_refl eq_refl eq_refl eq_refl).
  - do 3 (split; [reflexivity|]).
    exact (proj1 (proj2 (proj2 (proj2 (proj2 (formatDate_behaviour
                           Scenario.toDateSeconds Scenario.validFromEpoch
                           Scenario.formatSeconds (Some (Build_Timestamp 0 0))
                           initialState Sample.world0)))))
             (Build_Timestamp 0 0) 0%Z "Invalid time value"
             eq_refl eq_refl eq_refl eq_refl).
  - split; [exact H|].
    exact (proj2 (proj1 (formatDate_behaviour
                           Scenario.toDateSeconds Scenario.validFromEpoch
                           Scenario.formatSeconds (Some (Build_Timestamp (-2000) 0))
                           initialState Sample.world0) _) H).
Defined.

(** X9: a failed feed looks like an empty history.  After the error
    callback, and after a snapshot in which some [data()] throws, the list
    area shows the same "history is empty" message as after an empty
    snapshot, whatever was shown before; it never stays on the spinner. *)
Theorem failure_renders_as_empty_history st w docs d e error :
  d ∈ docs ->
  doc_data d = Thrown e ->
  body (stateAfter (onError error) st w) = EmptyMessage
  /\ body (stateAfter (onNext docs) st w) = EmptyMessage
  /\ body (stateAfter (onNext []) st w) = EmptyMessage.
Proof.
  intros Hd He.
  assert (Hnorm : normalize d = Thrown e) by (unfold normalize; by rewrite He).
  destruct (array_map_Thrown normalize docs d e Hd Hnorm) as [e' Hmap].
  split; [reflexivity|]. split; [|reflexivity].
  unfold stateAfter, onNext, bind, try_catch, movementsData. rewrite Hmap.
  reflexivity.
Qed.

Lemma failure_renders_as_empty_history_witness :
  Sample.broken ∈ [Sample.dated; Sample.broken]
  /\ doc_data Sample.broken = Thrown "data unavailable"
  /\ body (stateAfter (onNext [Sample.dated; Sample.broken])
             Scenario.loaded Sample.world0) = EmptyMessage.
Proof.
  assert (Hin : Sample.broken ∈ [Sample.dated; Sample.broken]) by (right; left).
  split; [exact Hin|]. split; [reflexivity|].
  exact (proj1 (proj2 (failure_renders_as_empty_history
                         Scenario.loaded Sample.world0
                         [Sample.dated; Sample.broken] Sample.broken
                         "data unavailable" "permission-denied" Hin eq_refl))).
Defined.



End RenderingFacts.

(** * Runs of the mounted view *)

Section RunFacts.
Import Js Firestore Feed ProductHistory Reference View Runs.

Lemma dispatch_world h i sys :
  world (dispatch h i sys) = worldAfter h (state i) (world sys).
Proof. reflexivity. Qed.

(** To show that a step relates the world before to the world after, it
    is enough to look at the handlers it can dispatch. *)
Lemma step_world_rel (R : World -> World -> Prop) e sys :
  R (world sys) (world sys) ->
  (forall st, match e with
              | SnapshotNext docs => R (world sys) (worldAfter (onNext docs) st (world sys))
              | SnapshotError err => R (world sys) (worldAfter (onError err) st (world sys))
              | Swiped _ =>
                  forall target, R (world sys) (worldAfter (onSwiped target) st (world sys))
              | DeleteClick _ =>
                  forall r, R (world sys) (worldAfter (handleDeleteClick r) st (world sys))
              | PromptClose => R (world sys) (worldAfter promptOnClose st (world sys))
              | PromptSuccess backend =>
                  forall p, R (world sys)
                              (worldAfter (promptOnSuccess p backend) st (world sys))
              | _ => True
              end) ->
  R (world sys) (world (step e sys)).
Proof.
  intros Hrefl Hh. unfold step.
  destruct (instance sys) as [i|] eqn:Hi.
  - specialize (Hh (state i)).
    destruct e as [p|p| |docs|error|row|row| |backend]; cbv beta iota;
      try exact Hrefl; try (rewrite dispatch_world; by apply Hh).
    + case_bool_decide; exact Hrefl.
    + destruct (rowsShown i); [rewrite dispatch_world; by apply Hh|exact Hrefl].
    + destruct (rowsShown i); [|exact Hrefl].
      destruct (movements (state i) !! row);
        [rewrite dispatch_world; by apply Hh|exact Hrefl].
    + destruct (promptShown i); [rewrite dispatch_world; by apply Hh|exact Hrefl].
    + destruct (promptShown i); [rewrite dispatch_world; by apply Hh|exact Hrefl].
  - destruct e; exact Hrefl.
Qed.

(** The same for a property of the state of the mounted instance. *)
Lemma step_state_inv (P : State -> Prop) e sys :
  P initialState ->
  (forall st w, P st ->
     match e with
     | SnapshotNext docs => P (stateAfter (onNext docs) st w)
     | SnapshotError err => P (stateAfter (onError err) st w)
     | Swiped _ => forall target, P (stateAfter (onSwiped target) st w)
     | DeleteClick _ => forall r, P (stateAfter (handleDeleteClick r) st w)
     | PromptClose => P (stateAfter promptOnClose st w)
     | PromptSuccess backend => forall p, P (stateAfter (promptOnSuccess p backend) st w)
     | _ => True
     end) ->
  (forall i, instance sys = Some i -> P (state i)) ->
  forall i, instance (step e sys) = Some i -> P (state i).
Proof.
  intros Hinit Hh Hsys i'. unfold step.
  destruct (instance sys) as [i|] eqn:Hi.
  - specialize (Hh (state i) (world sys) (Hsys i eq_refl)).
    specialize (Hsys i eq_refl).
    destruct e as [p|p| |docs|error|row|row| |backend]; cbv beta iota;
      try (rewrite dispatch_instance; intros [= <-]; by apply Hh).
    + rewrite Hi. by intros [= <-].
    + case_bool_decide; simpl; by intros [= <-].
    + simpl. done.
    + destruct (rowsShown i);
        [rewrite dispatch_instance; intros [= <-]; by apply Hh
        |rewrite Hi; by intros [= <-]].
    + destruct (rowsShown i); [|rewrite Hi; by intros [= <-]].
      destruct (movements (state i) !! row);
        [rewrite dispatch_instance; intros [= <-]; by apply Hh
        |rewrite Hi; by intros [= <-]].
    + destruct (promptShown i);
        [rewrite dispatch_instance; intros [= <-]; by apply Hh
        |rewrite Hi; by intros [= <-]].
    + destruct (promptShown i);
        [rewrite dispatch_instance; intros [= <-]; by apply Hh
        |rewrite Hi; by intros [= <-]].
  - destruct e as [p|p| |docs|error|row|row| |backend]; cbv beta iota;
      try (rewrite Hi; done).
    unfold onSnapshot. simpl. by intros [= <-].
Qed.

(** What each handler leaves alone. *)
Lemma onNext_frame docs st w :
  showPasswordPrompt (stateAfter (onNext docs) st w) = showPasswordPrompt st
  /\ selectedMovement (stateAfter (onNext docs) st w) = selectedMovement st
  /\ swipedMovementId (stateAfter (onNext docs) st w) = swipedMovementId st
  /\ store (worldAfter (onNext docs) st w) = store w
  /\ submitted (worldAfter (onNext docs) st w) = submitted w
  /\ notifications (worldAfter (onNext docs) st w) = notifications w.
Proof.
  unfold stateAfter, worldAfter, onNext, bind, try_catch.
  by destruct (Feed.movementsData docs).
Qed.

Lemma onSwiped_frame target st w :
  showPasswordPrompt (stateAfter (onSwiped target) st w) = showPasswordPrompt st
  /\ selectedMovement (stateAfter (onSwiped target) st w) = selectedMovement st
  /\ movements (stateAfter (onSwiped target) st w) = movements st
  /\ worldAfter (onSwiped target) st w = w.
Proof.
  unfold stateAfter, worldAfter, onSwiped.
  destruct target as [movementId|]; [|done].
  case_bool_decide; [done|].
  unfold handleSwipe, bind, get. simpl. by case_bool_decide.
Qed.

(** What [handleDelete] does to the world: at most one batch, of the one
    shape, answered by exactly one notification; the store moves only by
    restoring. *)
Lemma handleDelete_world product backend isAuthenticated st w :
  exists bs ns,
    submitted (worldAfter (handleDelete product backend isAuthenticated) st w)
    = submitted w ++ bs
    /\ notifications (worldAfter (handleDelete product backend isAuthenticated) st w)
       = notifications w ++ ns
    /\ length bs = length ns
    /\ Forall restoreBatch bs
    /\ onlyRestores (store w)
         (store (worldAfter (handleDelete product backend isAuthenticated) st w)).
Proof.
  assert (Hrefl : onlyRestores (store w) (store w)).
  { split; [done|]. split; [done|]. intros k d' Hk. eauto. }
  assert (Hnone : isAuthenticated = false \/ selectedMovement st = None ->
                  exists bs ns,
    submitted (worldAfter (handleDelete product backend isAuthenticated) st w)
    = submitted w ++ bs
    /\ notifications (worldAfter (handleDelete product backend isAuthenticated) st w)
       = notifications w ++ ns
    /\ length bs = length ns
    /\ Forall restoreBatch bs
    /\ onlyRestores (store w)
         (store (worldAfter (handleDelete product backend isAuthenticated) st w))).
  { intros H. exists [], []. unfold worldAfter. rewrite handleDelete_aborted by done.
    simpl. rewrite !app_nil_r. done. }
  destruct isAuthenticated; [|apply Hnone; by left].
  destruct (selectedMovement st) as [m|] eqn:Hsel; [|apply Hnone; by right].
  clear Hnone.
  assert (Hshape : Forall restoreBatch [deleteBatch product m]).
  { apply Forall_singleton. rewrite (proj2 (newQuantity_batch product m)).
    unfold restoreBatch. eauto 6. }
  unfold worldAfter.
  destruct (commit backend (deleteBatch product m) (store w)) as [s'|e] eqn:Hc.
  - rewrite (handleDelete_committed _ _ _ _ _ _ Hsel Hc). simpl.
    eexists _, _. split; [done|]. split; [done|]. split; [done|]. split; [done|].
    apply commit_Normal_iff in Hc as [_ Happly].
    rewrite (proj2 (newQuantity_batch product m)) in Happly.
    destruct (products (store w) !! Product.id product) as [d|] eqn:Hd;
      [|by rewrite apply_batch_restore_None in Happly].
    rewrite (apply_batch_restore _ _ _ _ _ d Hd) in Happly.
    injection Happly as <-. simpl.
    split; [apply dom_insert_lookup_L; eauto|].
    split; [apply delete_subseteq|].
    intros k d'. cbn [products].
    destruct (decide (Product.id product = k)) as [<-|Hne].
    + rewrite lookup_insert_eq. intros [= <-]. eauto.
    + rewrite lookup_insert_ne by done. eauto.
  - rewrite (handleDelete_failed _ _ _ _ _ _ Hsel Hc). simpl.
    eexists _, _. done.
Qed.

End RunFacts.

Section RunTheorems.
Import Js Firestore Feed ProductHistory Reference View Runs.

Lemma run_world_rel (R : World -> World -> Prop) es sys :
  (forall w, R w w) ->
  (forall a b c, R a b -> R b c -> R a c) ->
  (forall e s, e ∈ es -> R (world s) (world (step e s))) ->
  R (world sys) (world (run es sys)).
Proof.
  intros Hrefl Htrans. revert sys.
  induction es as [|e es IH]; intros sys Hstep; [apply Hrefl|].
  rewrite run_cons. apply (Htrans _ (world (step e sys))).
  - apply Hstep. left.
  - apply IH. intros e' s He'. apply Hstep. by right.
Qed.

Lemma run_state_inv (P : State -> Prop) es sys :
  (forall e sys,
      (forall i, instance sys = Some i -> P (state i)) ->
      forall i, instance (step e sys) = Some i -> P (state i)) ->
  (forall i, instance sys = Some i -> P (state i)) ->
  forall i, instance (run es sys) = Some i -> P (state i).
Proof.
  intros Hstep. revert sys.
  induction es as [|e es IH]; intros sys Hsys; [exact Hsys|].
  rewrite run_cons. apply IH. by apply Hstep.
Qed.

Lemma step_promptConsistent e sys :
  (forall i, instance sys = Some i -> promptConsistent (state i)) ->
  forall i, instance (step e sys) = Some i -> promptConsistent (state i).
Proof.
  apply step_state_inv; [reflexivity|].
  intros st w Hst. unfold promptConsistent in *.
  destruct e as [p|p| |docs|error|row|row| |backend]; try done.
  - destruct (onNext_frame docs st w) as (-> & -> & _). done.
  - intros target. destruct (onSwiped_frame target st w) as (-> & -> & _). done.
  - intros p. unfold promptOnSuccess, stateAfter.
    destruct (handleDelete_clears p backend true st w) as (sw & w' & ->). done.
Qed.

(** X11: in every state the view can reach, the password prompt is up
    exactly when a movement is selected.  So a confirmation of the prompt
    always finds a movement: it hands the store the batch for the selected
    movement and the product of the current props; when the prompt is not
    shown, the confirmation does nothing. *)
Theorem prompt_shown_iff_movement_selected w es backend :
  let sys := run es (initialSystem w) in
  match instance sys with
  | Some i =>
      promptConsistent (state i)
      /\ if promptShown i
         then exists m,
                selectedMovement (state i) = Some m
                /\ submitted (world (step (PromptSuccess backend) sys))
                   = submitted (world sys) ++ [deleteBatch (product (props i)) m]
         else step (PromptSuccess backend) sys = sys
  | None => step (PromptSuccess backend) sys = sys
  end.
Proof.
  intros sys.
  assert (Hinv : forall i, instance sys = Some i -> promptConsistent (state i)).
  { apply run_state_inv; [apply step_promptConsistent|]. intros i Hi. discriminate Hi. }
  clearbody sys. unfold step.
  destruct (instance sys) as [i|] eqn:Hi; [|done].
  specialize (Hinv i eq_refl). split; [exact Hinv|].
  destruct (promptShown i) eqn:Hshown; [|done].
  unfold promptShown in Hshown. apply andb_true_iff in Hshown as [_ Hsp].
  unfold promptConsistent in Hinv. rewrite Hsp in Hinv.
  symmetry in Hinv. apply bool_decide_eq_true in Hinv as [m Hsel].
  exists m. split; [done|].
  rewrite dispatch_world. unfold promptOnSuccess, worldAfter.
  destruct (commit backend (deleteBatch (product (props i)) m) (store (world sys)))
    as [s'|e] eqn:Hc.
  - by rewrite (handleDelete_committed _ _ _ _ _ _ Hsel Hc).
  - by rewrite (handleDelete_failed _ _ _ _ _ _ Hsel Hc).
Qed.

(** X12: only a confirmation of the prompt reaches the store.  Over any
    run without one (mounting, rendering, snapshots, errors, swipes, picking
    a row, closing the prompt, unmounting) the store is unchanged, no batch
    is handed to it and no notification is shown. *)
Theorem only_confirmation_touches_the_store es sys :
  forallb (fun e => negb (isPromptSuccess e)) es = true ->
  store (world (run es sys)) = store (world sys)
  /\ submitted (world (run es sys)) = submitted (world sys)
  /\ notifications (world (run es sys)) = notifications (world sys).
Proof.
  intros Hes.
  apply (run_world_rel
           (fun w w' => store w' = store w /\ submitted w' = submitted w
                        /\ notifications w' = notifications w)).
  - done.
  - intros a b c (-> & -> & ->) (-> & -> & ->). done.
  - intros e s He.
    rewrite forallb_forall in Hes. specialize (Hes e).
    rewrite <- list_elem_of_In in Hes. specialize (Hes He).
    apply step_world_rel; [done|].
    intros st. destruct e as [p|p| |docs|error|row|row| |backend]; try done.
    + destruct (onNext_frame docs st (world s)) as (_ & _ & _ & -> & -> & ->). done.
    + intros target. destruct (onSwiped_frame target st (world s)) as (_ & _ & _ & ->).
      done.
Qed.

Lemma only_confirmation_touches_the_store_witness :
  forallb (fun e => negb (isPromptSuccess e))
    [SnapshotNext [Sample.dated; Sample.broken]; Swiped 0; DeleteClick 1;
     PromptClose; Render Sample.closedView; SnapshotError "unavailable"; Unmount]
  = true
  /\ store (world (run [SnapshotNext [Sample.dated; Sample.broken]; Swiped 0;
                        DeleteClick 1; PromptClose; Render Sample.closedView;
                        SnapshotError "unavailable"; Unmount]
                     Scenario.loadedSystem))
     = Sample.store0.
Proof.
  split; [reflexivity|].
  exact (proj1 (only_confirmation_touches_the_store
                  [SnapshotNext [Sample.dated; Sample.broken]; Swiped 0;
                   DeleteClick 1; PromptClose; Render Sample.closedView;
                   SnapshotError "unavailable"; Unmount]
                  Scenario.loadedSystem eq_refl)).
Defined.

(** The world relation of a step, whatever the event. *)
Lemma step_accounting e sys :
  exists bs ns,
    submitted (world (step e sys)) = submitted (world sys) ++ bs
    /\ notifications (world (step e sys)) = notifications (world sys) ++ ns
    /\ length bs = length ns
    /\ Forall restoreBatch bs
    /\ onlyRestores (store (world sys)) (store (world (step e sys))).
Proof.
  assert (Hsame : forall w', store w' = store (world sys) ->
                    submitted w' = submitted (world sys) ->
                    notifications w' = notifications (world sys) ->
                    exists bs ns,
                      submitted w' = submitted (world sys) ++ bs
                      /\ notifications w' = notifications (world sys) ++ ns
                      /\ length bs = length ns
                      /\ Forall restoreBatch bs
                      /\ onlyRestores (store (world sys)) (store w')).
  { intros w' -> -> ->. exists [], []. rewrite !app_nil_r.
    split; [done|]. split; [done|]. split; [done|]. split; [done|].
    split; [done|]. split; [done|]. intros k d' Hk. eauto. }
  apply (step_world_rel
           (fun w w' => exists bs ns,
                submitted w' = submitted w ++ bs
                /\ notifications w' = notifications w ++ ns
                /\ length bs = length ns
                /\ Forall restoreBatch bs
                /\ onlyRestores (store w) (store w'))).
  - by apply Hsame.
  - intros st. destruct e as [p|p| |docs|error|row|row| |backend]; try done.
    + destruct (onNext_frame docs st (world sys)) as (_ & _ & _ & H1 & H2 & H3).
      by apply Hsame.
    + by apply Hsame.
    + intros target.
      destruct (onSwiped_frame target st (world sys)) as (_ & _ & _ & ->).
      by apply Hsame.
    + intros r. by apply Hsame.
    + by apply Hsame.
    + intros p. apply handleDelete_world.
Qed.

(** A step hands the store at most one batch and shows at most one
    notification, and none of either unless it is a confirmation. *)
Lemma step_confirmation_bound e sys :
  exists bs ns,
    submitted (world (step e sys)) = submitted (world sys) ++ bs
    /\ notifications (world (step e sys)) = notifications (world sys) ++ ns
    /\ (length bs <= if isPromptSuccess e then 1 else 0)%nat
    /\ (length ns <= if isPromptSuccess e then 1 else 0)%nat
    /\ Forall restoreBatch bs.
Proof.
  assert (Hsame : forall w', submitted w' = submitted (world sys) ->
                    notifications w' = notifications (world sys) ->
                    exists bs ns,
                      submitted w' = submitted (world sys) ++ bs
                      /\ notifications w' = notifications (world sys) ++ ns
                      /\ (length bs <= if isPromptSuccess e then 1 else 0)%nat
                      /\ (length ns <= if isPromptSuccess e then 1 else 0)%nat
                      /\ Forall restoreBatch bs).
  { intros w' -> ->. exists [], []. rewrite !app_nil_r. simpl.
    split; [done|]. split; [done|]. split; [lia|]. split; [lia|done]. }
  apply (step_world_rel
           (fun w w' => exists bs ns,
                submitted w' = submitted w ++ bs
                /\ notifications w' = notifications w ++ ns
                /\ (length bs <= if isPromptSuccess e then 1 else 0)%nat
                /\ (length ns <= if isPromptSuccess e then 1 else 0)%nat
                /\ Forall restoreBatch bs)).
  - by apply Hsame.
  - intros st. destruct e as [p|p| |docs|error|row|row| |backend]; try done.
    + destruct (onNext_frame docs st (world sys)) as (_ & _ & _ & _ & H2 & H3).
      by apply Hsame.
    + by apply Hsame.
    + intros target.
      destruct (onSwiped_frame target st (world sys)) as (_ & _ & _ & ->).
      by apply Hsame.
    + intros r. by apply Hsame.
    + by apply Hsame.
    + intros p. clear Hsame. unfold promptOnSuccess, worldAfter. simpl.
      destruct (selectedMovement st) as [m|] eqn:Hsel.
      * assert (Hshape : Forall restoreBatch [deleteBatch p m]).
        { apply Forall_singleton. rewrite (proj2 (newQuantity_batch p m)).
          unfold restoreBatch. eauto 6. }
        destruct (commit backend (deleteBatch p m) (store (world sys)))
          as [s'|e] eqn:Hc.
        -- rewrite (handleDelete_committed _ _ _ _ _ _ Hsel Hc). simpl.
           eexists _, _. split; [done|]. split; [done|]. simpl.
           split; [lia|]. split; [lia|done].
        -- rewrite (handleDelete_failed _ _ _ _ _ _ Hsel Hc). simpl.
           eexists _, _. split; [done|]. split; [done|]. simpl.
           split; [lia|]. split; [lia|done].
      * rewrite handleDelete_aborted by (by right).
        exists [], []. rewrite !app_nil_r. simpl.
        split; [done|]. split; [done|]. split; [lia|]. split; [lia|done].
Qed.

(** X13: each confirmation of the prompt hands the store at most one batch
    and shows at most one notification, and nothing else does either.  Over
    any run, the batches handed to the store and the notifications shown
    each grow by no more than the number of confirmations in the run, and
    every batch is an update of one product followed by the deletion of one
    movement: the component submits no other write. *)
Theorem confirmations_bound_batches_and_notifications es sys :
  exists bs ns,
    submitted (world (run es sys)) = submitted (world sys) ++ bs
    /\ notifications (world (run es sys)) = notifications (world sys) ++ ns
    /\ (length bs <= confirmations es)%nat
    /\ (length ns <= confirmations es)%nat
    /\ Forall restoreBatch bs.
Proof.
  revert sys. induction es as [|e es IH]; intros sys.
  - exists [], []. rewrite !app_nil_r. unfold confirmations. simpl.
    split; [done|]. split; [done|]. split; [lia|]. split; [lia|done].
  - rewrite run_cons.
    destruct (step_confirmation_bound e sys) as (bs1 & ns1 & Hb1 & Hn1 & Hlb1 & Hln1 & Hf1).
    destruct (IH (step e sys)) as (bs2 & ns2 & Hb2 & Hn2 & Hlb2 & Hln2 & Hf2).
    exists (bs1 ++ bs2), (ns1 ++ ns2).
    rewrite Hb2, Hb1, Hn2, Hn1, !app_assoc, !length_app.
    assert (Hc : confirmations (e :: es)
                 = ((if isPromptSuccess e then 1 else 0) + confirmations es)%nat).
    { unfold confirmations. simpl. by destruct (isPromptSuccess e). }
    rewrite Hc.
    split; [done|]. split; [done|]. split; [lia|]. split; [lia|].
    by apply Forall_app.
Qed.

(** X14: the component only ever restores and removes.  Over any run the
    set of product documents is the same, no product's name or unit
    changes, and the movement documents still stored are unchanged: no
    document is created, no product is deleted, no movement is edited. *)
Theorem run_only_restores es sys :
  onlyRestores (store (world sys)) (store (world (run es sys))).
Proof.
  apply (run_world_rel (fun w w' => onlyRestores (store w) (store w'))).
  - intros w. split; [done|]. split; [done|]. intros k d' Hk. eauto.
  - intros a b c (Hd1 & Hm1 & Hp1) (Hd2 & Hm2 & Hp2).
    split; [congruence|]. split; [by etrans|].
    intros k d'' Hk. destruct (Hp2 k d'' Hk) as (d' & Hk' & Hn' & Hu').
    destruct (Hp1 k d' Hk') as (d & Hk0 & Hn & Hu).
    exists d. split; [done|]. split; congruence.
  - intros e s _. destruct (step_accounting e s) as (bs & ns & _ & _ & _ & _ & H).
    exact H.
Qed.

End RunTheorems.

Section EndToEnd.
Import Js Firestore Feed ProductHistory Reference View Runs.

(** Subscription events keep a pending selection, the props and the world's
    store, batches and notifications. *)
Lemma subscription_events_keep_selection subs sys i m :
  forallb isSubscriptionEvent subs = true ->
  instance sys = Some i ->
  selectedMovement (state i) = Some m ->
  showPasswordPrompt (state i) = true ->
  exists i',
    instance (run subs sys) = Some i'
    /\ props i' = props i
    /\ selectedMovement (state i') = Some m
    /\ showPasswordPrompt (state i') = true
    /\ store (world (run subs sys)) = store (world sys)
    /\ submitted (world (run subs sys)) = submitted (world sys)
    /\ notifications (world (run subs sys)) = notifications (world sys).
Proof.
  revert sys i. induction subs as [|e subs IH]; intros sys i Hsubs Hi Hsel Hsp.
  - exists i. done.
  - simpl in Hsubs. apply andb_true_iff in Hsubs as [He Hsubs].
    rewrite run_cons.
    assert (Hstep : exists i1,
               instance (step e sys) = Some i1
               /\ props i1 = props i
               /\ selectedMovement (state i1) = Some m
               /\ showPasswordPrompt (state i1) = true
               /\ store (world (step e sys)) = store (world sys)
               /\ submitted (world (step e sys)) = submitted (world sys)
               /\ notifications (world (step e sys)) = notifications (world sys)).
    { unfold step. rewrite Hi.
      destruct e as [p|p| |docs|error|row|row| |backend]; try discriminate He;
        cbv beta iota.
      - destruct (onNext_frame docs (state i) (world sys))
          as (H1 & H2 & _ & H4 & H5 & H6).
        eexists. split; [apply dispatch_instance|]. rewrite dispatch_world. simpl.
        rewrite H1, H2, H4, H5, H6. done.
      - eexists. split; [apply dispatch_instance|]. done. }
    destruct Hstep as (i1 & Hi1 & Hp1 & Hsel1 & Hsp1 & Hs1 & Hb1 & Hn1).
    destruct (IH (step e sys) i1 Hsubs Hi1 Hsel1 Hsp1)
      as (i' & Hi' & Hp' & Hsel' & Hsp' & Hs' & Hb' & Hn').
    exists i'. rewrite Hp', Hs', Hb', Hn'. done.
Qed.

(** X15: from click to commit.  In an open, loaded view, clicking the
    delete button of row [row] and then confirming the prompt, with any
    snapshots or subscription errors arriving in between, deletes the
    movement that was in that row at the time of the click, even if the
    list has since changed: one batch for that movement is submitted, and
    when the backend accepts it and the product exists, the product carries
    the movement's previous quantity and average price, the movement's
    document is gone, one success notification is shown and nothing is left
    selected or revealed. *)
Theorem clicked_row_is_what_gets_deleted sys i row m d subs :
  instance sys = Some i ->
  rowsShown i = true ->
  movements (state i) !! row = Some m ->
  products (store (world sys)) !! Product.id (product (props i)) = Some d ->
  forallb isSubscriptionEvent subs = true ->
  let sys' := run (DeleteClick row :: subs ++ [PromptSuccess Accepts]) sys in
  submitted (world sys')
  = submitted (world sys) ++ [deleteBatch (product (props i)) m]
  /\ products (store (world sys')) !! Product.id (product (props i))
     = Some (Product.mk_doc (Product.name d) (Product.unit d)
               (Movement.previousQuantity m) (Movement.previousAveragePrice m))
  /\ productMovements (store (world sys')) !! Movement.id m = None
  /\ notifications (world sys')
     = notifications (world sys) ++ [SuccessNotification "Операция успешно удалена"]
  /\ exists i',
       instance sys' = Some i'
       /\ showPasswordPrompt (state i') = false
       /\ selectedMovement (state i') = None
       /\ swipedMovementId (state i') = None.
Proof.
  intros Hi Hrows Hrow Hd Hsubs sys'.
  unfold sys'. rewrite run_cons, run_app, run_cons, run_nil.
  set (sys1 := step (DeleteClick row) sys).
  assert (H1 : exists i1,
             instance sys1 = Some i1 /\ props i1 = props i
             /\ selectedMovement (state i1) = Some m
             /\ showPasswordPrompt (state i1) = true
             /\ world sys1 = world sys).
  { unfold sys1, step. rewrite Hi, Hrows, Hrow.
    eexists. split; [apply dispatch_instance|]. done. }
  destruct H1 as (i1 & Hi1 & Hp1 & Hsel1 & Hsp1 & Hw1).
  destruct (subscription_events_keep_selection subs sys1 i1 m Hsubs Hi1 Hsel1 Hsp1)
    as (i2 & Hi2 & Hp2 & Hsel2 & Hsp2 & Hs2 & Hb2 & Hn2).
  set (sys2 := run subs sys1) in *.
  rewrite Hw1 in Hs2, Hb2, Hn2. rewrite Hp1 in Hp2.
  assert (Hopen : isOpen (props i) = true).
  { unfold rowsShown in Hrows. by apply andb_true_iff in Hrows as [? _]. }
  assert (Hc : commit Accepts (deleteBatch (product (props i)) m) (store (world sys2))
               = Normal (mkStore
                           (<[Product.id (product (props i))
                              := Product.mk_doc (Product.name d) (Product.unit d)
                                   (Movement.previousQuantity m)
                                   (Movement.previousAveragePrice m)]>
                              (products (store (world sys))))
                           (delete (Movement.id m) (productMovements (store (world sys)))))).
  { unfold commit. rewrite (proj2 (newQuantity_batch _ m)), Hs2.
    by rewrite (apply_batch_restore _ _ _ _ _ d Hd). }
  unfold step. rewrite Hi2. unfold promptShown. rewrite Hp2, Hopen, Hsp2. simpl.
  unfold promptOnSuccess.
  rewrite Hp2, (handleDelete_committed _ _ _ _ _ _ Hsel2 Hc). simpl.
  rewrite Hb2, Hn2.
  split; [done|]. split; [apply lookup_insert_eq|]. split; [apply lookup_delete_eq|].
  split; [done|]. eexists. split; [reflexivity|]. done.
Qed.

Lemma clicked_row_is_what_gets_deleted_witness :
  instance Scenario.loadedSystem
  = Some (mkInstance Sample.openView Scenario.loaded 0)
  /\ rowsShown (mkInstance Sample.openView Scenario.loaded 0) = true
  /\ movements Scenario.loaded !! 0%nat = Some Sample.receiptRow
  /\ products (store (world Scenario.loadedSystem)) !! "p1"
     = Some (Product.fields Sample.cement)
  /\ forallb isSubscriptionEvent [SnapshotNext []; SnapshotError "unavailable"] = true
  /\ products
       (store (world (run (DeleteClick 0
                             :: [SnapshotNext []; SnapshotError "unavailable"]
                             ++ [PromptSuccess Accepts])
                        Scenario.loadedSystem))) !! "p1"
     = Some (Product.mk_doc "Cement" "kg" 80 9).
Proof.
  split; [reflexivity|]. split; [reflexivity|]. split; [reflexivity|].
  split; [reflexivity|]. split; [reflexivity|].
  exact (proj1 (proj2 (clicked_row_is_what_gets_deleted
                         Scenario.loadedSystem
                         (mkInstance Sample.openView Scenario.loaded 0)
                         0 Sample.receiptRow (Product.fields Sample.cement)
                         [SnapshotNext []; SnapshotError "unavailable"]
                         eq_refl eq_refl eq_refl eq_refl eq_refl))).
Defined.

End EndToEnd.
